(** * Subject slots and goal persistence: a shallow embedding

    The repository holds two independent Python modules:

    - [Database.py]: a Flask application that keeps five subject slots as
      rows of the table [subject_slots] and one goal string in the table
      [goals], with four HTTP handlers on top (module [DatabaseApp] below);
    - [database.py]: a persistence library that keeps name/value entries in
      the table [subject_entries], stores the five-slot snapshot as one JSON
      text under the key "subjects" and mirrors it in a module-level
      dictionary (module [DatabaseLib] below).

    Conventions of the embedding.

    - A Python [str] is a Rocq [string]; each character stands for one code
      point below 256.  Code points from 256 on are outside the embedding.
    - A value decoded from JSON is a [pyval].  Numbers are Python [int]s
      ([Z]); numbers with a fraction or an exponent ([float]) are outside
      the embedding.
    - A Python dictionary is an association list in insertion order.
    - A function that can raise returns a [result]; code running inside a
      [with connection] block is a state transformer on the working copy of
      the database that also returns a [result], so that statements executed
      before an exception are visible to the rollback.
    - A table is a finite map from its primary key to the other columns.
      The column [updated_at] is never read by the program and is left out.
    - [sqlite3] and [json] are libraries, not code of the repository.  Of
      sqlite3 the embedding keeps the transaction of a connection, the
      binding of parameters and the two constraints the schema declares
      (PRIMARY KEY, NOT NULL on a TEXT column).  [json.dumps] and
      [json.loads] are an interface ([JsonCodec]) with its round-trip law;
      [RefJson] implements it, which shows the law can be met and lets the
      examples run.
    - Limits of the interpreter (recursion depth, the length of integer
      literals) and failures of the storage engine are not modelled.
    - The CORS hook of Database.py writes to the header object of the
      framework and is not embedded. *)

From Stdlib Require Import ZArith Ascii DecimalString DecimalZ.
From stdpp Require Import gmap strings list sorting.

Local Open Scope Z_scope.

(** ** Python strings *)

Definition code (c : ascii) : N := Ascii.N_of_ascii c.

Definition chr (n : N) : ascii := Ascii.ascii_of_N n.

Definition dquote : ascii := chr 34.
Definition squote : ascii := chr 39.
Definition backslash : ascii := chr 92.

(** [str.isspace] on one code point below 256: the Unicode white space
    characters are 9-13, 28-32, 133 and 160. *)
Definition py_isspace (c : ascii) : bool :=
  let n := code c in
  ((9 <=? n) && (n <=? 13) || (28 <=? n) && (n <=? 32)
   || (n =? 133) || (n =? 160))%N.

Fixpoint lstrip (s : string) : string :=
  match s with
  | EmptyString => EmptyString
  | String c s' => if py_isspace c then lstrip s' else s
  end.

Fixpoint rstrip (s : string) : string :=
  match s with
  | EmptyString => EmptyString
  | String c s' =>
      match rstrip s' with
      | EmptyString => if py_isspace c then EmptyString else String c EmptyString
      | r => String c r
      end
  end.

(** [s.strip()] *)
Definition strip (s : string) : string := lstrip (rstrip s).

(** [str(n)] for an [int] *)
Definition py_int_str (z : Z) : string := NilEmpty.string_of_int (Z.to_int z).

Fixpoint str_mem (c : ascii) (s : string) : bool :=
  match s with
  | EmptyString => false
  | String c' s' => Ascii.eqb c c' || str_mem c s'
  end.

Definition hex_digit (n : N) : ascii :=
  if (n <? 10)%N then chr (48 + n) else chr (87 + n).

(** [str.isprintable] on one code point below 256 *)
Definition py_isprintable (c : ascii) : bool :=
  let n := code c in
  ((32 <=? n) && (n <? 127) || (161 <=? n) && negb (n =? 173))%N.

Definition repr_char (quote c : ascii) : string :=
  let n := code c in
  if Ascii.eqb c quote || Ascii.eqb c backslash
  then String backslash (String c EmptyString)
  else if (n =? 9)%N then String backslash "t"
  else if (n =? 10)%N then String backslash "n"
  else if (n =? 13)%N then String backslash "r"
  else if py_isprintable c then String c EmptyString
  else String backslash
         (String "x" (String (hex_digit (n / 16)) (String (hex_digit (n mod 16)) EmptyString))).

Fixpoint repr_chars (quote : ascii) (s : string) : string :=
  match s with
  | EmptyString => EmptyString
  | String c s' => repr_char quote c +:+ repr_chars quote s'
  end.

(** [repr(s)] for a [str]: single quotes unless the text holds a single
    quote and no double quote. *)
Definition py_repr_str (s : string) : string :=
  let quote := if str_mem squote s && negb (str_mem dquote s) then dquote else squote in
  String quote (repr_chars quote s +:+ String quote EmptyString).

Fixpoint join (sep : string) (parts : list string) : string :=
  match parts with
  | [] => EmptyString
  | [p] => p
  | p :: ps => p +:+ sep +:+ join sep ps
  end.

(** ** Python values *)

#[warnings="-register-all"]
Inductive pyval : Type :=
  | PNone
  | PBool (b : bool)
  | PInt (z : Z)
  | PStr (s : string)
  | PList (items : list pyval)
  | PDict (entries : list (string * pyval)).

Abbreviation pydict := (list (string * pyval)).

(** truth value of an object, as tested by [if not item] *)
Definition py_truthy (v : pyval) : bool :=
  match v with
  | PNone => false
  | PBool b => b
  | PInt z => negb (z =? 0)
  | PStr s => negb (String.eqb s EmptyString)
  | PList l => match l with [] => false | _ => true end
  | PDict d => match d with [] => false | _ => true end
  end.

Definition is_dict (v : pyval) : bool :=
  match v with PDict _ => true | _ => false end.

Definition is_list (v : pyval) : bool :=
  match v with PList _ => true | _ => false end.

Fixpoint py_repr (v : pyval) : string :=
  match v with
  | PNone => "None"
  | PBool true => "True"
  | PBool false => "False"
  | PInt z => py_int_str z
  | PStr s => py_repr_str s
  | PList l => "[" +:+ join ", " (map py_repr l) +:+ "]"
  | PDict d =>
      "{" +:+ join ", " (map (fun kv => match kv with
                                         | (k, x) => py_repr_str k +:+ ": " +:+ py_repr x
                                         end) d) +:+ "}"
  end.

(** [str(v)] *)
Definition py_str (v : pyval) : string :=
  match v with
  | PStr s => s
  | _ => py_repr v
  end.

(** [d.get(key)] *)
Fixpoint dict_get (key : string) (d : pydict) : option pyval :=
  match d with
  | [] => None
  | (k, v) :: d' => if String.eqb key k then Some v else dict_get key d'
  end.

(** [d.get(key, dflt)] *)
Definition dict_get_or (key : string) (dflt : pyval) (d : pydict) : pyval :=
  match dict_get key d with
  | Some v => v
  | None => dflt
  end.

(** [d[key] = v]: an existing key keeps its position *)
Fixpoint dict_set (key : string) (v : pyval) (d : pydict) : pydict :=
  match d with
  | [] => [(key, v)]
  | (k, x) :: d' => if String.eqb key k then (k, v) :: d' else (k, x) :: dict_set key v d'
  end.

(** value of [d.get(key)] as Python sees it: [None] for a missing key *)
Definition py_of_option (o : option pyval) : pyval :=
  match o with Some v => v | None => PNone end.


(** ** Exceptions, results and stateful computations *)

Inductive exn : Type :=
  | ValueError (msg : string)
  | TypeError (msg : string)
  | AttributeError (msg : string)
  | OverflowError (msg : string)
  (** [sqlite3.IntegrityError]: a constraint of the schema failed *)
  | IntegrityError (msg : string)
  (** [sqlite3.ProgrammingError]: a parameter of a type sqlite3 cannot bind *)
  | BindingError (msg : string)
  (** [sqlite3.OperationalError]: a statement on a table that does not exist *)
  | OperationalError (msg : string).

Inductive result (A : Type) : Type :=
  | Ok (a : A)
  | Raise (e : exn).
Arguments Ok {A} a.
Arguments Raise {A} e.

(** A computation over a state [S] that returns or raises; the state it
    leaves behind is kept in both cases. *)
Definition stateful (S A : Type) : Type := S -> result A * S.

Definition ret {S A} (a : A) : stateful S A := fun s => (Ok a, s).

Definition throw {S A} (e : exn) : stateful S A := fun s => (Raise e, s).

Definition bind {S A B} (m : stateful S A) (k : A -> stateful S B) : stateful S B :=
  fun s =>
    match m s with
    | (Ok a, s') => k a s'
    | (Raise e, s') => (Raise e, s')
    end.

Definition lift {S A} (r : result A) : stateful S A := fun s => (r, s).

Declare Scope py_scope.
Delimit Scope py_scope with py.
Notation "x <- m ;; k" := (bind m (fun x => k))
  (at level 100, m at next level, k at level 200, right associativity) : py_scope.
Notation "m ;;; k" := (bind m (fun _ => k))
  (at level 100, k at level 200, right associativity) : py_scope.

(** ** The sqlite3 connection *)

Section Sqlite.
Context {DB : Type}.

(** What persists between operations: the committed contents of the
    database file, and the number of connections that were opened and not
    closed. *)
Record world : Type := World {
  disk : DB;
  open_connections : nat
}.

(** A connection while it is in use. *)
Record connection : Type := Connection {
  committed : DB;
  working : DB;
  closed : bool
}.

(** [sqlite3.connect(path)] *)
Definition sqlite3_connect (w : world) : connection :=
  {| committed := disk w; working := disk w; closed := false |}.

Definition commit (c : connection) : connection :=
  {| committed := working c; working := working c; closed := closed c |}.

Definition rollback (c : connection) : connection :=
  {| committed := committed c; working := committed c; closed := closed c |}.

(** [connection.close()]; changes that were not committed are lost. *)
Definition close (c : connection) : connection :=
  {| committed := committed c; working := committed c; closed := true |}.

(** Runs the statements of a block on the working copy. *)
Definition run_block {A} (body : stateful DB A) (c : connection)
  : result A * connection :=
  match body (working c) with
  | (r, d) => (r, {| committed := committed c; working := d; closed := closed c |})
  end.

(** The world once the operation that opened [c] has returned. *)
Definition leave (w : world) (c : connection) : world :=
  {| disk := committed c;
     open_connections := if closed c then open_connections w
                         else S (open_connections w) |}.

(** [with connection: body], the context manager of [sqlite3.Connection]:
    commit when the block returns, rollback when it raises; the
    connection stays open. *)
Definition with_transaction {A} (c : connection) (body : stateful DB A)
  : result A * connection :=
  match run_block body c with
  | (Ok a, c') => (Ok a, commit c')
  | (Raise e, c') => (Raise e, rollback c')
  end.
End Sqlite.
Arguments world : clear implicits.
Arguments connection : clear implicits.

(** Values sqlite3 binds to a statement parameter. *)
Inductive sql_value : Type :=
  | SqlNull
  | SqlInteger (z : Z)
  | SqlText (s : string).

Definition py_type_name (v : pyval) : string :=
  match v with
  | PNone => "NoneType"
  | PBool _ => "bool"
  | PInt _ => "int"
  | PStr _ => "str"
  | PList _ => "list"
  | PDict _ => "dict"
  end.

(** Binding of a Python object to a parameter: [None], [int] (and [bool],
    its subclass) within 64 bits, and [str] are supported. *)
Definition sql_bind (v : pyval) : result sql_value :=
  match v with
  | PNone => Ok SqlNull
  | PBool b => Ok (SqlInteger (if b then 1 else 0))
  | PInt z =>
      if (- 2 ^ 63 <=? z) && (z <? 2 ^ 63) then Ok (SqlInteger z)
      else Raise (OverflowError "Python int too large to convert to SQLite INTEGER")
  | PStr s => Ok (SqlText s)
  | PList _ | PDict _ =>
      Raise (BindingError ("type '" +:+ py_type_name v +:+ "' is not supported"))
  end.

(** A column declared [TEXT NOT NULL]: NULL is refused, an integer is
    stored as its decimal text (TEXT affinity). *)
Definition text_not_null (column : string) (v : sql_value) : result string :=
  match v with
  | SqlNull => Raise (IntegrityError ("NOT NULL constraint failed: " +:+ column))
  | SqlInteger z => Ok (py_int_str z)
  | SqlText s => Ok s
  end.

(** [len(v)] *)
Definition py_len (v : pyval) : result Z :=
  match v with
  | PStr s => Ok (Z.of_nat (String.length s))
  | PList l => Ok (Z.of_nat (length l))
  | PDict d => Ok (Z.of_nat (length d))
  | _ => Raise (TypeError ("object of type '" +:+ py_type_name v +:+ "' has no len()"))
  end.

Fixpoint chars (s : string) : list pyval :=
  match s with
  | EmptyString => []
  | String c s' => PStr (String c EmptyString) :: chars s'
  end.

(** The elements [for ... in v] visits, for the values that have a length. *)
Definition py_iter (v : pyval) : list pyval :=
  match v with
  | PStr s => chars s
  | PList l => l
  | PDict d => map (fun kv => PStr kv.1) d
  | _ => []
  end.

(** [item.get(key, dflt)] on an arbitrary object *)
Definition py_get (item : pyval) (key : string) (dflt : pyval) : result pyval :=
  match item with
  | PDict d => Ok (dict_get_or key dflt d)
  | _ => Raise (AttributeError
                  ("'" +:+ py_type_name item +:+ "' object has no attribute 'get'"))
  end.

Local Open Scope py_scope.

(** ** Database.py: slot rows, the goal row and the HTTP handlers *)

Module DatabaseApp.

Definition SLOT_COUNT : Z := 5.

(** A row of [subject_slots], without its key [slot]. *)
Record slot_row : Type := SlotRow {
  subject : string;
  current : string;
  target : string
}.

(** The database file: each table is absent until [init_db] creates it.
    [subject_slots] is keyed by [slot], [goals] by [id]. *)
Record db : Type := Db {
  subject_slots : option (gmap Z slot_row);
  goals : option (gmap Z string)
}.

(** A new, empty database file. *)
Definition new_db : db := Db None None.

Abbreviation op := (stateful (world db)).

Definition _get_connection (w : world db) : connection db := sqlite3_connect w.

(** [with _get_connection() as connection: body] *)
Definition with_connection {A} (body : stateful db A) : op A :=
  fun w =>
    let connection := _get_connection w in
    match with_transaction connection body with
    | (r, c) => (r, leave w c)
    end.

(** *** Statements *)

Definition create_subject_slots : stateful db unit :=
  fun d =>
    match subject_slots d with
    | None => (Ok tt, Db (Some ∅) (goals d))
    | Some _ => (Ok tt, d)
    end.

Definition create_goals : stateful db unit :=
  fun d =>
    match goals d with
    | None => (Ok tt, Db (subject_slots d) (Some ∅))
    | Some _ => (Ok tt, d)
    end.

Definition slot_le (a b : Z * slot_row) : Prop := a.1 ≤ b.1.

#[global] Instance slot_le_dec : RelDecision slot_le.
Proof. intros a b. unfold slot_le. apply _. Defined.

(** [SELECT slot, subject, current, target FROM subject_slots ORDER BY slot] *)
Definition select_slots : stateful db (list (Z * slot_row)) :=
  fun d =>
    match subject_slots d with
    | None => (Raise (OperationalError "no such table: subject_slots"), d)
    | Some t => (Ok (merge_sort slot_le (map_to_list t)), d)
    end.

(** [DELETE FROM subject_slots] *)
Definition delete_slots : stateful db unit :=
  fun d =>
    match subject_slots d with
    | None => (Raise (OperationalError "no such table: subject_slots"), d)
    | Some _ => (Ok tt, Db (Some ∅) (goals d))
    end.

(** [INSERT INTO subject_slots (slot, subject, current, target) VALUES (?, ?, ?, ?)] *)
Definition insert_slot (slot : Z) (row : slot_row) : stateful db unit :=
  fun d =>
    match subject_slots d with
    | None => (Raise (OperationalError "no such table: subject_slots"), d)
    | Some t =>
        match t !! slot with
        | Some _ =>
            (Raise (IntegrityError "UNIQUE constraint failed: subject_slots.slot"), d)
        | None => (Ok tt, Db (Some (<[slot := row]> t)) (goals d))
        end
    end.

(** [INSERT INTO goals (id, goal) VALUES (1, ?) ON CONFLICT(id) DO UPDATE
    SET goal = excluded.goal, updated_at = CURRENT_TIMESTAMP] *)
Definition upsert_goal (goal : pyval) : stateful db unit :=
  fun d =>
    match sql_bind goal with
    | Raise e => (Raise e, d)
    | Ok v =>
        match goals d with
        | None => (Raise (OperationalError "no such table: goals"), d)
        | Some t =>
            match text_not_null "goals.goal" v with
            | Raise e => (Raise e, d)
            | Ok s => (Ok tt, Db (subject_slots d) (Some (<[1 := s]> t)))
            end
        end
    end.

(** [SELECT goal FROM goals WHERE id = 1], then [fetchone()] *)
Definition select_goal : stateful db (option string) :=
  fun d =>
    match goals d with
    | None => (Raise (OperationalError "no such table: goals"), d)
    | Some t => (Ok (t !! 1), d)
    end.

(** *** Functions of the module *)

Definition init_db : op unit :=
  with_connection (create_subject_slots ;;; create_goals).

Definition row_record (row : slot_row) : pyval :=
  PDict [("subject", PStr (subject row));
         ("current", PStr (current row));
         ("target", PStr (target row))].

(** The loop [for row in rows] of [_load_subjects]. *)
Fixpoint fill_slots (rows : list (Z * slot_row)) (subjects : list pyval) : list pyval :=
  match rows with
  | [] => subjects
  | (slot, row) :: rest =>
      fill_slots rest
        (if (0 <=? slot) && (slot <? SLOT_COUNT)
         then <[Z.to_nat slot := row_record row]> subjects
         else subjects)
  end.

Definition _load_subjects : op (list pyval) :=
  init_db ;;;
  let subjects := replicate (Z.to_nat SLOT_COUNT) PNone in
  rows <- with_connection select_slots ;;
  ret (fill_slots rows subjects).

(** The loop [for slot, item in enumerate(subjects)] of [_save_subjects]. *)
Fixpoint save_items (slot : Z) (items : list pyval) : stateful db unit :=
  match items with
  | [] => ret tt
  | item :: rest =>
      if negb (py_truthy item) then save_items (slot + 1) rest
      else
        s <- lift (py_get item "subject" (PStr EmptyString)) ;;
        c <- lift (py_get item "current" (PStr EmptyString)) ;;
        t <- lift (py_get item "target" (PStr EmptyString)) ;;
        insert_slot slot (SlotRow (py_str s) (py_str c) (py_str t)) ;;;
        save_items (slot + 1) rest
  end.

Definition _save_subjects (subjects : pyval) : op unit :=
  init_db ;;;
  n <- lift (py_len subjects) ;;
  if negb (n =? SLOT_COUNT)
  then throw (ValueError ("Expected " +:+ py_int_str SLOT_COUNT +:+ " slots, got "
                            +:+ py_int_str n +:+ "."))
  else with_connection (delete_slots ;;; save_items 0 (py_iter subjects)).

Definition save_goal (goal : pyval) : op unit :=
  init_db ;;;
  with_connection (upsert_goal goal).

Definition load_goal : op string :=
  init_db ;;;
  row <- with_connection select_goal ;;
  ret (match row with Some goal => goal | None => EmptyString end).

(** *** HTTP handlers

    [payload] is the result of [request.get_json(silent=True)]: the decoded
    body, or [None] when the body is not JSON.  A handler that raises
    leaves the answer to the framework. *)

Record response : Type := Response {
  body : pyval;
  status : Z
}.

Definition jsonify (v : pyval) : response := Response v 200.

Definition get_subjects : op response :=
  subjects <- _load_subjects ;;
  ret (jsonify (PList subjects)).

Definition set_subjects (payload : pyval) : op response :=
  if negb (is_list payload)
  then ret (Response (PDict [("error", PStr "Payload must be a list.")]) 400)
  else
    fun w =>
      match _save_subjects payload w with
      | (Raise (ValueError msg), w') =>
          (Ok (Response (PDict [("error", PStr msg)]) 400), w')
      | (Raise e, w') => (Raise e, w')
      | (Ok _, w') => (Ok (jsonify (PDict [("status", PStr "ok")])), w')
      end.

Definition get_goal : op response :=
  goal <- load_goal ;;
  ret (jsonify (PDict [("goal", PStr goal)])).

Definition set_goal (payload : pyval) : op response :=
  match payload with
  | PDict d =>
      match dict_get "goal" d with
      | Some goal =>
          save_goal goal ;;;
          ret (jsonify (PDict [("status", PStr "ok")]))
      | None =>
          ret (Response (PDict [("error", PStr "Payload must be a dict with 'goal' key.")]) 400)
      end
  | _ => ret (Response (PDict [("error", PStr "Payload must be a dict with 'goal' key.")]) 400)
  end.

End DatabaseApp.

(** ** The json module

    [json.dumps] and [json.loads] belong to the Python library.  The
    embedding takes them as an interface: [json_loads] returns [None] where
    [json.loads] raises [JSONDecodeError], and decoding the text of a value
    whose dictionaries have no repeated key gives the value back. *)

Fixpoint json_wf (v : pyval) : Prop :=
  match v with
  | PList l => fold_right (fun x acc => json_wf x /\ acc) True l
  | PDict d =>
      NoDup (map fst d)
      /\ fold_right (fun kv acc => match kv with (_, x) => json_wf x /\ acc end) True d
  | _ => True
  end.

Class JsonCodec : Type := {
  json_dumps : pyval -> string;
  json_loads : string -> option pyval;
  json_dumps_nonempty : forall v, json_dumps v <> EmptyString;
  json_loads_dumps : forall v, json_wf v -> json_loads (json_dumps v) = Some v
}.

(** ** database.py: name/value entries, the JSON snapshot and its mirror *)

Module DatabaseLib.

Definition SLOT_COUNT : Z := 5.
Definition SUBJECTS_KEY : string := "subjects".

(** The database file at [db_path]: the table [subject_entries], keyed by
    [name], is absent until [init_db] creates it. *)
Record db : Type := Db {
  subject_entries : option (gmap string string)
}.

Definition new_db : db := Db None.

(** The process: the database file and the module-level dictionary
    [subjects]. *)
Record state : Type := State {
  store : world db;
  subjects : pydict
}.

(** [with _get_connection(db_path) as connection: body]: commit after the
    block, rollback and re-raise on an exception, close in all cases. *)
Definition _get_connection {A} (body : stateful db A) : stateful (world db) A :=
  fun w =>
    let connection := sqlite3_connect w in
    match run_block body connection with
    | (Ok a, c) => (Ok a, leave w (close (commit c)))
    | (Raise e, c) => (Raise e, leave w (close (rollback c)))
    end.

(** *** Statements *)

Definition create_subject_entries : stateful db unit :=
  fun d =>
    match subject_entries d with
    | None => (Ok tt, Db (Some ∅))
    | Some _ => (Ok tt, d)
    end.

(** [INSERT INTO subject_entries (name, value, updated_at) VALUES (?, ?,
    CURRENT_TIMESTAMP) ON CONFLICT(name) DO UPDATE SET value =
    excluded.value, updated_at = CURRENT_TIMESTAMP] *)
Definition upsert_entry (name value : string) : stateful db unit :=
  fun d =>
    match subject_entries d with
    | None => (Raise (OperationalError "no such table: subject_entries"), d)
    | Some t => (Ok tt, Db (Some (<[name := value]> t)))
    end.

Definition entry_le (a b : string * string) : Prop := String.le a.1 b.1.

#[global] Instance entry_le_dec : RelDecision entry_le.
Proof. intros a b. unfold entry_le. apply _. Defined.

(** [SELECT name, value FROM subject_entries ORDER BY name] *)
Definition select_entries : stateful db (list (string * string)) :=
  fun d =>
    match subject_entries d with
    | None => (Raise (OperationalError "no such table: subject_entries"), d)
    | Some t => (Ok (merge_sort entry_le (map_to_list t)), d)
    end.

(** [SELECT value FROM subject_entries WHERE name = ?], then [fetchone()] *)
Definition select_value (name : string) : stateful db (option string) :=
  fun d =>
    match subject_entries d with
    | None => (Raise (OperationalError "no such table: subject_entries"), d)
    | Some t => (Ok (t !! name), d)
    end.

(** *** Functions on the store *)

Definition init_db : stateful (world db) unit :=
  _get_connection create_subject_entries.

Definition save_subject (name value : string) : stateful (world db) unit :=
  if String.eqb name EmptyString
  then throw (ValueError "name must be a non-empty string.")
  else
    init_db ;;;
    _get_connection (upsert_entry name value).

(** One row of the [executemany] of [save_subjects]: the same statement as
    [upsert_entry], with the value bound as the dictionary holds it. *)
Definition upsert_bound (name : string) (value : pyval) : stateful db unit :=
  fun d =>
    match sql_bind value with
    | Raise e => (Raise e, d)
    | Ok v =>
        match subject_entries d with
        | None => (Raise (OperationalError "no such table: subject_entries"), d)
        | Some t =>
            match text_not_null "subject_entries.value" v with
            | Raise e => (Raise e, d)
            | Ok s => (Ok tt, Db (Some (<[name := s]> t)))
            end
        end
    end.

(** [connection.executemany(statement, rows)] *)
Fixpoint upsert_all (rows : pydict) : stateful db unit :=
  match rows with
  | [] => ret tt
  | (name, value) :: rest => upsert_bound name value ;;; upsert_all rest
  end.

Definition save_subjects (subject_data : pyval) : stateful (world db) unit :=
  match subject_data with
  | PDict d =>
      init_db ;;;
      _get_connection (upsert_all d)
  | _ => throw (TypeError "subject_data must be a dict of {name: value}.")
  end.

(** The result is the dictionary built from the rows in their order. *)
Definition load_subjects : stateful (world db) (list (string * string)) :=
  init_db ;;;
  rows <- _get_connection select_entries ;;
  ret rows.

(** *** The snapshot *)

(** The record literal built from an object of the payload. *)
Definition normalize_record (item : pydict) : pyval :=
  PDict [("subject", PStr (strip (py_str (dict_get_or "subject" (PStr EmptyString) item))));
         ("current", PStr (strip (py_str (dict_get_or "current" (PStr EmptyString) item))));
         ("target", PStr (strip (py_str (dict_get_or "target" (PStr EmptyString) item))))].

(** The loop [for index, item in enumerate(subject_list)]. *)
Fixpoint normalize_items (index : Z) (items : list pyval) (normalized : pydict)
  : result pydict :=
  match items with
  | [] => Ok normalized
  | item :: rest =>
      if negb (py_truthy item) then normalize_items (index + 1) rest normalized
      else
        match item with
        | PDict d =>
            normalize_items (index + 1) rest
              (dict_set (py_int_str index) (normalize_record d) normalized)
        | _ =>
            Raise (TypeError ("subject_list[" +:+ py_int_str index
                                +:+ "] must be a dict or null."))
        end
  end.

Definition _normalize_subject_payload (subject_list : pyval) (slot_count : Z)
  : result pydict :=
  match subject_list with
  | PList items =>
      if negb (Z.of_nat (length items) =? slot_count)
      then Raise (ValueError ("Expected " +:+ py_int_str slot_count +:+ " slots, got "
                                +:+ py_int_str (Z.of_nat (length items)) +:+ "."))
      else normalize_items 0 items []
  | _ => Raise (TypeError "subject_list must be a list.")
  end.

Section WithJson.
Context `{JsonCodec}.

Definition save_subjects_snapshot (subject_list : pyval) (slot_count : Z)
  : stateful state unit :=
  fun st =>
    match _normalize_subject_payload subject_list slot_count with
    | Raise e => (Raise e, st)
    | Ok normalized =>
        match save_subject SUBJECTS_KEY (json_dumps (PDict normalized)) (store st) with
        | (r, w) => (r, State w normalized)
        end
    end.

(** The loop [for key, value in stored.items()]. *)
Fixpoint load_items (items : pydict) (mirror : pydict) : pydict :=
  match items with
  | [] => mirror
  | (key, value) :: rest =>
      match value with
      | PDict d => load_items rest (dict_set key (normalize_record d) mirror)
      | _ => load_items rest mirror
      end
  end.

(** The mirror rebuilt from the fetched row. *)
Definition recover (row : option string) : pydict :=
  match row with
  | Some text =>
      if String.eqb text EmptyString then []
      else
        let stored := match json_loads text with
                      | Some v => v
                      | None => PDict []
                      end in
        match stored with
        | PDict items => load_items items []
        | _ => []
        end
  | None => []
  end.

Definition load_subjects_snapshot (slot_count : Z) : stateful state (list pyval) :=
  fun st =>
    match (init_db ;;; _get_connection (select_value SUBJECTS_KEY)) (store st) with
    | (Raise e, w) => (Raise e, State w (subjects st))
    | (Ok row, w) =>
        let mirror := recover row in
        (Ok (map (fun i => py_of_option (dict_get (py_int_str i) mirror))
                 (seqZ 0 slot_count)),
         State w mirror)
    end.
End WithJson.

End DatabaseLib.

(** ** A reference implementation of the json interface

    [RefJson.dumps] writes the text [json.dumps] writes with its default
    arguments (separators ", " and ": ", every character outside the
    printable ASCII range escaped).  [RefJson.loads] reads JSON text with
    the grammar of [json.loads]; it refuses the texts whose value is outside
    the embedding (a [float], a character from code point 256 on). *)

Module RefJson.

Definition escape_char (c : ascii) : string :=
  let n := code c in
  if Ascii.eqb c dquote then String backslash (String dquote EmptyString)
  else if Ascii.eqb c backslash then String backslash (String backslash EmptyString)
  else if (n =? 10)%N then String backslash "n"
  else if (n =? 13)%N then String backslash "r"
  else if (n =? 9)%N then String backslash "t"
  else if (n =? 8)%N then String backslash "b"
  else if (n =? 12)%N then String backslash "f"
  else if (32 <=? n)%N && (n <=? 126)%N then String c EmptyString
  else String backslash
         (String "u" (String "0" (String "0"
            (String (hex_digit (n / 16)) (String (hex_digit (n mod 16)) EmptyString))))).

Fixpoint escape (s : string) : string :=
  match s with
  | EmptyString => EmptyString
  | String c s' => escape_char c +:+ escape s'
  end.

Definition dumps_str (s : string) : string :=
  String dquote (escape s +:+ String dquote EmptyString).

Fixpoint dumps (v : pyval) : string :=
  match v with
  | PNone => "null"
  | PBool true => "true"
  | PBool false => "false"
  | PInt z => py_int_str z
  | PStr s => dumps_str s
  | PList l => "[" +:+ join ", " (map dumps l) +:+ "]"
  | PDict d =>
      "{" +:+ join ", " (map (fun kv => match kv with
                                         | (k, x) => dumps_str k +:+ ": " +:+ dumps x
                                         end) d) +:+ "}"
  end.

Definition is_ws (c : ascii) : bool :=
  let n := code c in ((n =? 32) || (n =? 9) || (n =? 10) || (n =? 13))%N.

Fixpoint skip_ws (s : string) : string :=
  match s with
  | EmptyString => EmptyString
  | String c s' => if is_ws c then skip_ws s' else s
  end.

Definition hex_value (c : ascii) : option N :=
  let n := code c in
  if (48 <=? n)%N && (n <=? 57)%N then Some (n - 48)%N
  else if (97 <=? n)%N && (n <=? 102)%N then Some (n - 87)%N
  else if (65 <=? n)%N && (n <=? 70)%N then Some (n - 55)%N
  else None.

(** The character an escape of one letter stands for. *)
Definition unescape (e : ascii) : option ascii :=
  let n := code e in
  if Ascii.eqb e dquote then Some dquote
  else if Ascii.eqb e backslash then Some backslash
  else if (n =? 47)%N then Some (chr 47)
  else if (n =? 98)%N then Some (chr 8)
  else if (n =? 102)%N then Some (chr 12)
  else if (n =? 110)%N then Some (chr 10)
  else if (n =? 114)%N then Some (chr 13)
  else if (n =? 116)%N then Some (chr 9)
  else None.

Definition hex4 (a b c d : ascii) : option N :=
  match hex_value a, hex_value b, hex_value c, hex_value d with
  | Some x, Some y, Some z, Some t => Some (((x * 16 + y) * 16 + z) * 16 + t)%N
  | _, _, _, _ => None
  end.

Definition cons_char (c : ascii) (r : option (string * string)) : option (string * string) :=
  match r with
  | Some (s, rest) => Some (String c s, rest)
  | None => None
  end.

(** The characters of a string literal after its opening quote, and the
    text after its closing quote. *)
Fixpoint parse_string (s : string) : option (string * string) :=
  match s with
  | EmptyString => None
  | String c s' =>
      if Ascii.eqb c dquote then Some (EmptyString, s')
      else if Ascii.eqb c backslash then
        match s' with
        | String e s'' =>
            if Ascii.eqb e "u" then
              match s'' with
              | String h1 (String h2 (String h3 (String h4 r))) =>
                  match hex4 h1 h2 h3 h4 with
                  | Some n => if (n <? 256)%N then cons_char (chr n) (parse_string r)
                              else None
                  | None => None
                  end
              | _ => None
              end
            else
              match unescape e with
              | Some c' => cons_char c' (parse_string s'')
              | None => None
              end
        | EmptyString => None
        end
      else if (code c <? 32)%N then None
      else cons_char c (parse_string s')
  end.

Definition digit_value (c : ascii) : option N :=
  let n := code c in
  if (48 <=? n)%N && (n <=? 57)%N then Some (n - 48)%N else None.

(** The longest run of digits at the head of [s], read in base ten from
    the value [acc]. *)
Fixpoint parse_digits (acc : N) (s : string) : N * string :=
  match s with
  | EmptyString => (acc, s)
  | String c s' =>
      match digit_value c with
      | Some d => parse_digits (acc * 10 + d) s'
      | None => (acc, s)
      end
  end.

Definition starts_fraction (s : string) : bool :=
  match s with
  | String c _ => Ascii.eqb c "." || Ascii.eqb c "e" || Ascii.eqb c "E"
  | EmptyString => false
  end.

(** An integer literal: [0], or a digit from 1 to 9 and the digits that
    follow it; a fraction or an exponent after it makes a [float]. *)
Definition parse_nat (s : string) : option (N * string) :=
  match s with
  | String c s' =>
      match digit_value c with
      | Some 0%N => if starts_fraction s' then None else Some (0%N, s')
      | Some d =>
          match parse_digits d s' with
          | (n, rest) => if starts_fraction rest then None else Some (n, rest)
          end
      | None => None
      end
  | EmptyString => None
  end.

Definition parse_int (s : string) : option (Z * string) :=
  match s with
  | String c s' =>
      if Ascii.eqb c "-" then
        match parse_nat s' with
        | Some (n, rest) => Some (- Z.of_N n, rest)
        | None => None
        end
      else
        match parse_nat s with
        | Some (n, rest) => Some (Z.of_N n, rest)
        | None => None
        end
  | EmptyString => None
  end.

(** [strip_prefix p s] is the text of [s] after [p], when [s] starts with [p]. *)
Fixpoint strip_prefix (p s : string) : option string :=
  match p, s with
  | EmptyString, _ => Some s
  | String a p', String b s' => if Ascii.eqb a b then strip_prefix p' s' else None
  | String _ _, EmptyString => None
  end.

(** The dictionary [json.loads] builds from the pairs of an object, in
    their order: a repeated key keeps its first position and its last
    value. *)
Definition dict_of_pairs (pairs : pydict) : pydict :=
  fold_left (fun d kv => dict_set kv.1 kv.2 d) pairs [].

Fixpoint parse_value (fuel : nat) (s : string) : option (pyval * string) :=
  match fuel with
  | O => None
  | S fuel' =>
      match skip_ws s with
      | EmptyString => None
      | String c s' =>
          if Ascii.eqb c dquote then
            match parse_string s' with
            | Some (str, rest) => Some (PStr str, rest)
            | None => None
            end
          else if Ascii.eqb c "[" then
            match skip_ws s' with
            | String c' rest =>
                if Ascii.eqb c' "]" then Some (PList [], rest)
                else
                  match parse_elements fuel' (skip_ws s') [] with
                  | Some (l, rest') => Some (PList l, rest')
                  | None => None
                  end
            | EmptyString => None
            end
          else if Ascii.eqb c "{" then
            match skip_ws s' with
            | String c' rest =>
                if Ascii.eqb c' "}" then Some (PDict [], rest)
                else
                  match parse_members fuel' (skip_ws s') [] with
                  | Some (pairs, rest') => Some (PDict (dict_of_pairs pairs), rest')
                  | None => None
                  end
            | EmptyString => None
            end
          else if Ascii.eqb c "n" then
            match strip_prefix "ull" s' with
            | Some rest => Some (PNone, rest)
            | None => None
            end
          else if Ascii.eqb c "t" then
            match strip_prefix "rue" s' with
            | Some rest => Some (PBool true, rest)
            | None => None
            end
          else if Ascii.eqb c "f" then
            match strip_prefix "alse" s' with
            | Some rest => Some (PBool false, rest)
            | None => None
            end
          else
            match parse_int (String c s') with
            | Some (z, rest) => Some (PInt z, rest)
            | None => None
            end
      end
  end
(** the elements of an array after the ones in [seen] (latest first) *)
with parse_elements (fuel : nat) (s : string) (seen : list pyval)
  : option (list pyval * string) :=
  match fuel with
  | O => None
  | S fuel' =>
      match parse_value fuel' s with
      | Some (v, rest) =>
          match skip_ws rest with
          | String c rest' =>
              if Ascii.eqb c "," then parse_elements fuel' rest' (v :: seen)
              else if Ascii.eqb c "]" then Some (rev (v :: seen), rest')
              else None
          | EmptyString => None
          end
      | None => None
      end
  end
(** the members of an object after the ones in [seen] (latest first) *)
with parse_members (fuel : nat) (s : string) (seen : pydict)
  : option (pydict * string) :=
  match fuel with
  | O => None
  | S fuel' =>
      match skip_ws s with
      | String q s1 =>
          if Ascii.eqb q dquote then
            match parse_string s1 with
            | Some (key, s2) =>
                match skip_ws s2 with
                | String colon s3 =>
                    if Ascii.eqb colon ":" then
                      match parse_value fuel' s3 with
                      | Some (v, rest) =>
                          match skip_ws rest with
                          | String c rest' =>
                              if Ascii.eqb c "," then
                                parse_members fuel' rest' ((key, v) :: seen)
                              else if Ascii.eqb c "}" then
                                Some (rev ((key, v) :: seen), rest')
                              else None
                          | EmptyString => None
                          end
                      | None => None
                      end
                    else None
                | EmptyString => None
                end
            | None => None
            end
          else None
      | EmptyString => None
      end
  end.

(** [json.loads]: one value, with nothing but white space after it. *)
Definition loads (s : string) : option pyval :=
  match parse_value (S (String.length s)) s with
  | Some (v, rest) =>
      match skip_ws rest with
      | EmptyString => Some v
      | String _ _ => None
      end
  | None => None
  end.

End RefJson.

(** * Vocabulary of the properties *)

(** An element the write loops accept: false in a test, or a dictionary. *)
Definition slot_ok (item : pyval) : bool := negb (py_truthy item) || is_dict item.

Section AppVocabulary.
Import DatabaseApp.

(** The schema once [init_db] has run: missing tables are empty. *)
Definition ensured (d : db) : db :=
  Db (Some (default ∅ (subject_slots d))) (Some (default ∅ (goals d))).

Definition slot_rows (d : db) : gmap Z slot_row := default ∅ (subject_slots d).
Definition goal_rows (d : db) : gmap Z string := default ∅ (goals d).

Definition row_of (d : pydict) : slot_row :=
  SlotRow (py_str (dict_get_or "subject" (PStr EmptyString) d))
          (py_str (dict_get_or "current" (PStr EmptyString) d))
          (py_str (dict_get_or "target" (PStr EmptyString) d)).

(** The row a written element leaves in [subject_slots], if any. *)
Definition stored_row (item : pyval) : option slot_row :=
  match item with
  | PDict ((_ :: _) as d) => Some (row_of d)
  | _ => None
  end.

Fixpoint store_rows (slot : Z) (items : list pyval) (t : gmap Z slot_row)
  : gmap Z slot_row :=
  match items with
  | [] => t
  | item :: rest =>
      store_rows (slot + 1) rest
        (match stored_row item with Some r => <[slot := r]> t | None => t end)
  end.

(** What [_load_subjects] builds from the rows of [subject_slots]. *)
Definition slots_view (t : gmap Z slot_row) : list pyval :=
  fill_slots (merge_sort slot_le (map_to_list t))
             (replicate (Z.to_nat SLOT_COUNT) PNone).

(** The record [_load_subjects] builds from the row of a written object:
    its three fields as strings, a missing field as the empty string. *)
Definition app_record (d : pydict) : pyval :=
  PDict [("subject", PStr (py_str (dict_get_or "subject" (PStr EmptyString) d)));
         ("current", PStr (py_str (dict_get_or "current" (PStr EmptyString) d)));
         ("target", PStr (py_str (dict_get_or "target" (PStr EmptyString) d)))].

(** The entry [_load_subjects] returns for a written element: a record
    for an object that is not empty, [None] otherwise. *)
Definition app_slot (item : pyval) : pyval :=
  match item with
  | PDict ((_ :: _) as d) => app_record d
  | _ => PNone
  end.

End AppVocabulary.

Section LibVocabulary.
Import DatabaseLib.

Definition entries (d : db) : gmap string string := default ∅ (subject_entries d).

(** The record the snapshot keeps for a written element, if any. *)
Definition stored_record (item : pyval) : option pyval :=
  match item with
  | PDict ((_ :: _) as d) => Some (normalize_record d)
  | _ => None
  end.

Fixpoint normalized_of (index : Z) (items : list pyval) (acc : pydict) : pydict :=
  match items with
  | [] => acc
  | item :: rest =>
      normalized_of (index + 1) rest
        (match stored_record item with
         | Some r => dict_set (py_int_str index) r acc
         | None => acc
         end)
  end.

(** A record as both snapshot paths write it: the three fields, already
    trimmed. *)
Definition is_record (v : pyval) : Prop :=
  exists d, v = PDict d /\ normalize_record d = PDict d.

Definition snapshot_wf (m : pydict) : Prop :=
  NoDup m.*1 /\ Forall (fun kv => is_record kv.2) m.

(** The list [load_subjects_snapshot] reads off the mirror. *)
Definition snapshot_view (slot_count : Z) (mirror : pydict) : list pyval :=
  map (fun i => py_of_option (dict_get (py_int_str i) mirror)) (seqZ 0 slot_count).


End LibVocabulary.

Section RefJsonVocabulary.
Import RefJson.

(** Text after which a value ends: nothing, or a separator. *)
Definition delimited (rest : string) : bool :=
  match rest with
  | EmptyString => true
  | String c _ => Ascii.eqb c "," || Ascii.eqb c "]" || Ascii.eqb c "}"
  end.

Definition int_start (c : ascii) : bool :=
  Ascii.eqb c "-" || (48 <=? code c)%N && (code c <=? 57)%N.

(** The characters a written value starts with. *)
Definition value_start (c : ascii) : bool :=
  int_start c || Ascii.eqb c dquote || Ascii.eqb c "[" || Ascii.eqb c "{"
  || Ascii.eqb c "n" || Ascii.eqb c "t" || Ascii.eqb c "f".

(** Fuel that is enough to read a written value back. *)
Fixpoint size (v : pyval) : nat :=
  match v with
  | PList l => S (fold_right (fun x acc => S (size x + acc)) O l)
  | PDict d =>
      S (fold_right (fun kv acc => match kv with (_, x) => S (size x + acc) end) O d)
  | _ => 1
  end.

Definition list_size (l : list pyval) : nat :=
  fold_right (fun x acc => S (size x + acc)) O l.

Definition dict_size (d : pydict) : nat :=
  fold_right (fun kv acc => match kv with (_, x) => S (size x + acc) end) O d.

Definition list_wf (l : list pyval) : Prop :=
  fold_right (fun x acc => json_wf x /\ acc) True l.

Definition dict_wf (d : pydict) : Prop :=
  fold_right (fun kv acc => match kv with (_, x) => json_wf x /\ acc end) True d.

Definition member_text (kv : string * pyval) : string :=
  match kv with (k, x) => dumps_str k +:+ ": " +:+ dumps x end.

End RefJsonVocabulary.

(** ** Snapshots written and read back *)






(** A new database file, no connection open, and for [database.py] an empty
    mirror. *)
Definition app_start : world DatabaseApp.db := World DatabaseApp.new_db 0.
Definition lib_start : DatabaseLib.state := DatabaseLib.State (World DatabaseLib.new_db 0) [].

(** ** The goal *)

(** The field "goal" of a payload of POST /api/goal, when it is an object
    that has one. *)
Definition goal_of (payload : pyval) : option pyval :=
  match payload with
  | PDict d => dict_get "goal" d
  | _ => None
  end.

(** The text the column [goals.goal] keeps for a value: a string as it is,
    an integer of at most 64 bits (a boolean is 0 or 1) as its decimal
    text; nothing for the other values, which the statement refuses. *)
Definition goal_text (goal : pyval) : option string :=
  match goal with
  | PStr s => Some s
  | PBool b => Some (if b then "1" else "0")
  | PInt z => if (- 2 ^ 63 <=? z) && (z <? 2 ^ 63) then Some (py_int_str z) else None
  | PNone | PList _ | PDict _ => None
  end.

(** The answer of POST /api/goal to a payload without a goal. *)
Definition goal_error : DatabaseApp.response :=
  DatabaseApp.Response (PDict [("error", PStr "Payload must be a dict with 'goal' key.")]) 400.

(** ** Entries written in bulk *)

(** The text the column [subject_entries.value] keeps for a value: the
    column is declared like [goals.goal]. *)
Abbreviation stored_text := goal_text.

(** The table after the rows of [executemany], when every value can be
    stored. *)
Fixpoint upserted (rows : pydict) (t : gmap string string) : gmap string string :=
  match rows with
  | [] => t
  | (name, value) :: rest =>
      upserted rest (match stored_text value with
                     | Some s => <[name := s]> t
                     | None => t
                     end)
  end.

(** * Properties *)

(** ** Strings *)

Lemma lstrip_fixed (s : string) : lstrip (lstrip s) = lstrip s.
Proof.
  induction s as [|c s IH]; simpl; [reflexivity|].
  destruct (py_isspace c) eqn:E; [exact IH|].
  simpl. rewrite E. reflexivity.
Qed.

Lemma rstrip_cons (c : ascii) (s : string) :
  rstrip (String c s) = String c s -> rstrip s = s.
Proof.
  simpl. destruct (rstrip s) eqn:E.
  - destruct (py_isspace c); [discriminate|]. intros [= <-]. reflexivity.
  - intros [= <-]. reflexivity.
Qed.

Lemma rstrip_unfold (c : ascii) (s : string) :
  rstrip (String c s)
  = match rstrip s with
    | EmptyString => if py_isspace c then EmptyString else String c EmptyString
    | r => String c r
    end.
Proof. reflexivity. Qed.

Lemma rstrip_fixed (s : string) : rstrip (rstrip s) = rstrip s.
Proof.
  induction s as [|c s IH]; [reflexivity|].
  rewrite rstrip_unfold.
  destruct (rstrip s) as [|c' r] eqn:E.
  - destruct (py_isspace c) eqn:Ec; [reflexivity|].
    rewrite rstrip_unfold. simpl. rewrite Ec. reflexivity.
  - rewrite rstrip_unfold, IH. reflexivity.
Qed.

Lemma rstrip_lstrip (s : string) : rstrip s = s -> rstrip (lstrip s) = lstrip s.
Proof.
  induction s as [|c s IH]; simpl lstrip; [tauto|].
  intros Hs. destruct (py_isspace c); [|exact Hs].
  apply IH. exact (rstrip_cons c s Hs).
Qed.

Lemma strip_fixed (s : string) : strip (strip s) = strip s.
Proof.
  unfold strip.
  rewrite (rstrip_lstrip (rstrip s)) by apply rstrip_fixed.
  apply lstrip_fixed.
Qed.

Lemma py_int_str_inj (a b : Z) : py_int_str a = py_int_str b -> a = b.
Proof.
  unfold py_int_str. intros E.
  apply DecimalZ.to_int_inj.
  assert (Some (Z.to_int a) = Some (Z.to_int b)) as [= ->]; [|reflexivity].
  rewrite <- !NilEmpty.isi. rewrite E. reflexivity.
Qed.

(** ** Dictionaries *)

Lemma dict_get_set_eq (k : string) (v : pyval) (d : pydict) :
  dict_get k (dict_set k v d) = Some v.
Proof.
  induction d as [|[k' x] d IH]; simpl.
  - rewrite String.eqb_refl. reflexivity.
  - destruct (String.eqb k k') eqn:E; simpl; rewrite E; [reflexivity|exact IH].
Qed.

Lemma dict_get_set_ne (k k' : string) (v : pyval) (d : pydict) :
  k <> k' -> dict_get k (dict_set k' v d) = dict_get k d.
Proof.
  intros Hne. induction d as [|[k0 x] d IH]; simpl.
  - apply String.eqb_neq in Hne. rewrite Hne. reflexivity.
  - destruct (String.eqb k' k0) eqn:E; simpl.
    + apply String.eqb_eq in E. subst k0.
      apply String.eqb_neq in Hne. rewrite Hne. reflexivity.
    + rewrite IH. reflexivity.
Qed.

Lemma dict_set_fresh (k : string) (v : pyval) (d : pydict) :
  k ∉ d.*1 -> dict_set k v d = d ++ [(k, v)].
Proof.
  induction d as [|[k' x] d IH]; simpl; intros Hk; [reflexivity|].
  apply not_elem_of_cons in Hk as [Hne Hk].
  apply String.eqb_neq in Hne. rewrite Hne, IH by exact Hk. reflexivity.
Qed.

Lemma dict_get_None (k : string) (d : pydict) :
  dict_get k d = None <-> k ∉ d.*1.
Proof.
  induction d as [|[k' x] d IH]; simpl.
  - split; [intros _; apply not_elem_of_nil|reflexivity].
  - rewrite not_elem_of_cons. destruct (String.eqb k k') eqn:E.
    + apply String.eqb_eq in E. split; [discriminate|]. intros [Hne _]. contradiction.
    + apply String.eqb_neq in E. rewrite IH. tauto.
Qed.

Lemma dict_set_keys (k : string) (v : pyval) (d : pydict) :
  (dict_set k v d).*1 = if decide (k ∈ d.*1) then d.*1 else d.*1 ++ [k].
Proof.
  induction d as [|[k' x] d IH].
  - destruct (decide (k ∈ ([] : pydict).*1)) as [Hin|Hin]; [|reflexivity].
    apply elem_of_nil in Hin. contradiction.
  - simpl dict_set. destruct (String.eqb k k') eqn:E.
    + apply String.eqb_eq in E. subst k'.
      destruct (decide (k ∈ ((k, x) :: d).*1)) as [Hin|Hin]; [reflexivity|].
      exfalso. apply Hin. apply list_elem_of_here.
    + apply String.eqb_neq in E.
      change (k' :: (dict_set k v d).*1
              = if decide (k ∈ k' :: d.*1) then k' :: d.*1 else (k' :: d.*1) ++ [k]).
      rewrite IH.
      destruct (decide (k ∈ d.*1)) as [Hin|Hin];
        destruct (decide (k ∈ k' :: d.*1)) as [Hin'|Hin'].
      * reflexivity.
      * exfalso. apply Hin'. apply list_elem_of_further. exact Hin.
      * apply elem_of_cons in Hin' as [?|?]; contradiction.
      * reflexivity.
Qed.

Lemma dict_set_NoDup (k : string) (v : pyval) (d : pydict) :
  NoDup d.*1 -> NoDup (dict_set k v d).*1.
Proof.
  intros Hnd. rewrite dict_set_keys.
  destruct (decide (k ∈ d.*1)) as [Hin|Hin]; [exact Hnd|].
  apply NoDup_app. split; [exact Hnd|]. split.
  - intros x Hx Hk. apply list_elem_of_singleton in Hk. subst x. contradiction.
  - apply NoDup_singleton.
Qed.


(** ** Database.py *)

Section App.
Import DatabaseApp.

Lemma init_db_run (w : world db) :
  init_db w = (Ok tt, World (ensured (disk w)) (S (open_connections w))).
Proof.
  destruct w as [[ss gs] n].
  destruct ss, gs; reflexivity.
Qed.

Lemma with_connection_ok {A} (body : stateful db A) (w : world db) (a : A) (d : db) :
  body (disk w) = (Ok a, d) ->
  with_connection body w = (Ok a, World d (S (open_connections w))).
Proof.
  intros E. unfold with_connection, with_transaction, run_block. simpl.
  rewrite E. reflexivity.
Qed.

Lemma with_connection_raise {A} (body : stateful db A) (w : world db) (e : exn) (d : db) :
  body (disk w) = (Raise e, d) ->
  with_connection body w = (Raise e, World (disk w) (S (open_connections w))).
Proof.
  intros E. unfold with_connection, with_transaction, run_block. simpl.
  rewrite E. reflexivity.
Qed.

Lemma store_rows_lookup (items : list pyval) (slot : Z) (t : gmap Z slot_row) (k : Z) :
  (forall j, slot <= j -> t !! j = None) ->
  store_rows slot items t !! k
  = if decide (slot <= k < slot + Z.of_nat (length items))
    then items !! Z.to_nat (k - slot) ≫= stored_row
    else t !! k.
Proof.
  revert slot t. induction items as [|item rest IH]; intros slot t Hfree; simpl.
  - case_decide; [lia|reflexivity].
  - rewrite IH.
    2:{ intros j Hj. destruct (stored_row item); [|apply Hfree; lia].
        rewrite lookup_insert_ne by lia. apply Hfree; lia. }
    destruct (decide (k = slot)) as [->|Hne].
    + rewrite Z.sub_diag. simpl.
      repeat case_decide; try lia.
      destruct (stored_row item); [apply lookup_insert_eq|apply Hfree; lia].
    + repeat case_decide; try lia.
      * replace (Z.to_nat (k - slot)) with (S (Z.to_nat (k - (slot + 1)))) by lia.
        reflexivity.
      * destruct (stored_row item); [|reflexivity].
        apply lookup_insert_ne. lia.
Qed.

Lemma save_items_run (items : list pyval) (slot : Z) (t : gmap Z slot_row)
    (g : option (gmap Z string)) :
  Forall (fun item => slot_ok item = true) items ->
  (forall j, slot <= j -> t !! j = None) ->
  save_items slot items (Db (Some t) g) = (Ok tt, Db (Some (store_rows slot items t)) g).
Proof.
  intros Hok. revert slot t.
  induction Hok as [|item rest Hitem _ IH]; intros slot t Hfree; [reflexivity|].
  simpl save_items.
  assert (Hnext : forall j, slot + 1 <= j -> t !! j = None)
    by (intros; apply Hfree; lia).
  destruct item as [| b | z | s | l | [|kv d]]; unfold slot_ok in Hitem;
    simpl in Hitem |- *; try (apply IH; exact Hnext).
  - destruct b; simpl in *; [discriminate|]. apply IH; exact Hnext.
  - destruct (z =? 0); simpl in *; [|discriminate]. apply IH; exact Hnext.
  - destruct (String.eqb s EmptyString); simpl in *; [|discriminate].
    apply IH; exact Hnext.
  - destruct l; simpl in *; [|discriminate]. apply IH; exact Hnext.
  - unfold bind at 1. unfold lift. simpl.
    unfold bind at 1. simpl. unfold bind at 1. simpl.
    unfold bind at 1. unfold insert_slot. simpl.
    rewrite (Hfree slot) by lia.
    apply IH. intros j Hj. rewrite lookup_insert_ne by lia. apply Hfree; lia.
Qed.

Lemma fill_slots_length (rows : list (Z * slot_row)) (subjects : list pyval) :
  length (fill_slots rows subjects) = length subjects.
Proof.
  revert subjects. induction rows as [|[slot row] rest IH]; intros subjects; simpl.
  - reflexivity.
  - rewrite IH. destruct (_ && _); [apply length_insert|reflexivity].
Qed.

Lemma fill_slots_lookup (rows : list (Z * slot_row)) (subjects : list pyval) (i : nat) :
  NoDup rows.*1 ->
  (i < length subjects)%nat ->
  Z.of_nat i < SLOT_COUNT ->
  fill_slots rows subjects !! i
  = match (list_to_map rows : gmap Z slot_row) !! Z.of_nat i with
    | Some r => Some (row_record r)
    | None => subjects !! i
    end.
Proof.
  revert subjects. induction rows as [|[slot row] rest IH]; intros subjects Hnd Hi Hlt.
  - simpl. rewrite lookup_empty. reflexivity.
  - simpl in Hnd. apply NoDup_cons in Hnd as [Hfresh Hnd].
    simpl fill_slots. rewrite IH; [|exact Hnd| |exact Hlt].
    2:{ destruct (_ && _); [rewrite length_insert|]; exact Hi. }
    simpl list_to_map.
    destruct (decide (slot = Z.of_nat i)) as [->|Hne].
    + rewrite lookup_insert_eq.
      rewrite (not_elem_of_list_to_map_1 rest (Z.of_nat i) Hfresh).
      replace ((0 <=? Z.of_nat i) && (Z.of_nat i <? SLOT_COUNT)) with true
        by (symmetry; apply andb_true_iff; split; [apply Z.leb_le|apply Z.ltb_lt]; lia).
      rewrite Nat2Z.id. apply list_lookup_insert_eq. exact Hi.
    + rewrite lookup_insert_ne by exact Hne.
      destruct (list_to_map rest !! Z.of_nat i); [reflexivity|].
      destruct (_ && _) eqn:Hrange; [|reflexivity].
      apply list_lookup_insert_ne.
      apply andb_true_iff in Hrange as [H0 _]. apply Z.leb_le in H0. lia.
Qed.

Lemma slots_view_length (t : gmap Z slot_row) : length (slots_view t) = 5%nat.
Proof. unfold slots_view. rewrite fill_slots_length. reflexivity. Qed.

Lemma slots_view_lookup (t : gmap Z slot_row) (i : nat) :
  (i < 5)%nat ->
  slots_view t !! i
  = Some (match t !! Z.of_nat i with Some r => row_record r | None => PNone end).
Proof.
  intros Hi. unfold slots_view.
  assert (Hperm : merge_sort slot_le (map_to_list t) ≡ₚ map_to_list t)
    by apply merge_sort_Permutation.
  rewrite fill_slots_lookup.
  - rewrite (list_to_map_proper _ (map_to_list t)).
    + rewrite list_to_map_to_list.
      destruct (t !! Z.of_nat i); [reflexivity|].
      apply lookup_replicate_2. exact Hi.
    + rewrite Hperm. apply NoDup_fst_map_to_list.
    + exact Hperm.
  - rewrite Hperm. apply NoDup_fst_map_to_list.
  - rewrite length_replicate. exact Hi.
  - unfold SLOT_COUNT. lia.
Qed.

Lemma slots_view_store (items : list pyval) :
  length items = 5%nat ->
  slots_view (store_rows 0 items ∅) = map app_slot items.
Proof.
  intros Hlen. apply list_eq. intros i.
  destruct (decide (i < 5)%nat) as [Hi|Hi].
  - rewrite slots_view_lookup by exact Hi.
    rewrite store_rows_lookup by (intros; apply lookup_empty).
    rewrite decide_True by lia.
    replace (Z.to_nat (Z.of_nat i - 0)) with i by lia.
    rewrite list_lookup_fmap.
    destruct (items !! i) as [item|] eqn:E; simpl.
    + destruct item as [| | | | |[|kv d]]; reflexivity.
    + apply lookup_ge_None in E. lia.
  - rewrite !lookup_ge_None_2; [reflexivity| |].
    + rewrite length_map. lia.
    + rewrite slots_view_length. lia.
Qed.

Lemma _save_subjects_run (items : list pyval) (w : world db) :
  length items = 5%nat ->
  Forall (fun item => slot_ok item = true) items ->
  _save_subjects (PList items) w
  = (Ok tt, World (Db (Some (store_rows 0 items ∅)) (Some (goal_rows (disk w))))
                  (S (S (open_connections w)))).
Proof.
  intros Hlen Hok. unfold _save_subjects.
  unfold bind at 1. rewrite init_db_run.
  unfold bind at 1. unfold lift. simpl py_len. cbv iota beta.
  rewrite Hlen.
  change (negb (Z.of_nat 5 =? SLOT_COUNT)) with false. cbv iota.
  erewrite with_connection_ok; [reflexivity|].
  simpl. unfold bind, delete_slots. simpl.
  apply save_items_run; [exact Hok|]. intros; apply lookup_empty.
Qed.

Lemma _load_subjects_run (w : world db) :
  _load_subjects w
  = (Ok (slots_view (slot_rows (disk w))),
     World (ensured (disk w)) (S (S (open_connections w)))).
Proof.
  unfold _load_subjects. unfold bind at 1. rewrite init_db_run.
  unfold bind at 1.
  erewrite with_connection_ok; [|reflexivity]. reflexivity.
Qed.
End App.


(** ** database.py *)

Section Lib.
Import DatabaseLib.
Context `{JsonCodec}.

Lemma _get_connection_ok {A} (body : stateful db A) (w : world db) (a : A) (d : db) :
  body (disk w) = (Ok a, d) ->
  _get_connection body w = (Ok a, World d (open_connections w)).
Proof.
  intros E. unfold _get_connection, run_block. simpl. rewrite E. reflexivity.
Qed.

Lemma _get_connection_raise {A} (body : stateful db A) (w : world db) (e : exn) (d : db) :
  body (disk w) = (Raise e, d) ->
  _get_connection body w = (Raise e, w).
Proof.
  intros E. unfold _get_connection, run_block. simpl. rewrite E.
  destruct w; reflexivity.
Qed.

Lemma lib_init_db_run (w : world db) :
  init_db w = (Ok tt, World (Db (Some (entries (disk w)))) (open_connections w)).
Proof. destruct w as [[[t|]] n]; reflexivity. Qed.

Lemma save_subject_run (name value : string) (w : world db) :
  name <> EmptyString ->
  save_subject name value w
  = (Ok tt, World (Db (Some (<[name := value]> (entries (disk w))))) (open_connections w)).
Proof.
  intros Hne. unfold save_subject.
  apply String.eqb_neq in Hne. rewrite Hne.
  unfold bind. rewrite lib_init_db_run. reflexivity.
Qed.

Lemma load_subjects_run (w : world db) :
  load_subjects w
  = (Ok (merge_sort entry_le (map_to_list (entries (disk w)))),
     World (Db (Some (entries (disk w)))) (open_connections w)).
Proof.
  unfold load_subjects, bind. rewrite lib_init_db_run. reflexivity.
Qed.

Lemma normalize_items_run (items : list pyval) (index : Z) (acc : pydict) :
  Forall (fun item => slot_ok item = true) items ->
  normalize_items index items acc = Ok (normalized_of index items acc).
Proof.
  intros Hok. revert index acc.
  induction Hok as [|item rest Hitem _ IH]; intros index acc; [reflexivity|].
  simpl normalize_items.
  destruct item as [| b | z | s | l | [|kv d]]; unfold slot_ok in Hitem;
    simpl in Hitem |- *; try apply IH.
  - destruct b; simpl in *; [discriminate|]. apply IH.
  - destruct (z =? 0); simpl in *; [|discriminate]. apply IH.
  - destruct (String.eqb s EmptyString); simpl in *; [|discriminate]. apply IH.
  - destruct l; simpl in *; [|discriminate]. apply IH.
Qed.

Lemma normalized_of_get (items : list pyval) (index : Z) (acc : pydict) (k : Z) :
  dict_get (py_int_str k) (normalized_of index items acc)
  = match (if decide (index <= k < index + Z.of_nat (length items))
           then items !! Z.to_nat (k - index) ≫= stored_record
           else None) with
    | Some r => Some r
    | None => dict_get (py_int_str k) acc
    end.
Proof.
  revert index acc. induction items as [|item rest IH]; intros index acc.
  - simpl. destruct (decide _); [lia|reflexivity].
  - simpl normalized_of. rewrite IH. clear IH.
    assert (Hset : forall r, k <> index ->
              dict_get (py_int_str k) (dict_set (py_int_str index) r acc)
              = dict_get (py_int_str k) acc).
    { intros r Hne. apply dict_get_set_ne. intros E. apply py_int_str_inj in E. lia. }
    destruct (decide (k = index)) as [->|Hne].
    + rewrite decide_False by lia. rewrite decide_True by (simpl length; lia).
      rewrite Z.sub_diag. simpl.
      destruct (stored_record item); [apply dict_get_set_eq|reflexivity].
    + destruct (decide (index + 1 <= k < index + 1 + Z.of_nat (length rest))) as [Hin|Hout].
      * rewrite decide_True by (simpl length; lia).
        replace (Z.to_nat (k - index)) with (S (Z.to_nat (k - (index + 1)))) by lia.
        simpl.
        destruct (rest !! Z.to_nat (k - (index + 1)) ≫= stored_record); [reflexivity|].
        destruct (stored_record item); [apply Hset; exact Hne|reflexivity].
      * rewrite decide_False by (simpl length; lia).
        destruct (stored_record item); [apply Hset; exact Hne|reflexivity].
Qed.

Lemma normalize_record_is_record (d : pydict) : is_record (normalize_record d).
Proof.
  eexists. split; [reflexivity|].
  unfold normalize_record, dict_get_or. simpl. rewrite !strip_fixed. reflexivity.
Qed.

Lemma dict_set_values (P : pyval -> Prop) (k : string) (v : pyval) (d : pydict) :
  P v -> Forall (fun kv => P kv.2) d -> Forall (fun kv => P kv.2) (dict_set k v d).
Proof.
  intros Hv Hd. induction Hd as [|[k' x] d Hx Hd IH]; simpl.
  - repeat constructor. exact Hv.
  - destruct (String.eqb k k'); constructor; assumption.
Qed.

Lemma normalized_of_wf (items : list pyval) (index : Z) (acc : pydict) :
  snapshot_wf acc -> snapshot_wf (normalized_of index items acc).
Proof.
  revert index acc. induction items as [|item rest IH]; intros index acc Hacc;
    [exact Hacc|].
  simpl. apply IH. destruct (stored_record item) as [r|] eqn:E; [|exact Hacc].
  destruct Hacc as [Hnd Hrec]. split.
  - apply dict_set_NoDup. exact Hnd.
  - apply dict_set_values; [|exact Hrec].
    destruct item as [| | | | |[|kv d]]; try discriminate.
    injection E as <-. apply normalize_record_is_record.
Qed.

Lemma is_record_json_wf (v : pyval) : is_record v -> json_wf v.
Proof.
  intros (d & -> & E). unfold normalize_record in E. injection E as <-.
  simpl. split; [|tauto].
  apply NoDup_cons. split; [|apply NoDup_cons; split; [|apply NoDup_singleton]].
  - rewrite !elem_of_cons. intros [?|[?|?%elem_of_nil]]; [discriminate..|contradiction].
  - rewrite !elem_of_cons. intros [?|?%elem_of_nil]; [discriminate|contradiction].
Qed.

Lemma snapshot_json_wf (m : pydict) : snapshot_wf m -> json_wf (PDict m).
Proof.
  intros [Hnd Hrec]. simpl. split; [exact Hnd|].
  clear Hnd. induction Hrec as [|[k v] m Hv _ IH]; simpl; [exact I|].
  split; [apply is_record_json_wf; exact Hv|exact IH].
Qed.

Lemma load_items_fresh (items acc : pydict) :
  NoDup (acc.*1 ++ items.*1) ->
  Forall (fun kv => is_record kv.2) items ->
  load_items items acc = acc ++ items.
Proof.
  intros Hnd Hrec. revert acc Hnd.
  induction Hrec as [|[k v] items Hv _ IH]; intros acc Hnd; simpl.
  - rewrite app_nil_r. reflexivity.
  - simpl in Hv. destruct Hv as (d & -> & Hd). simpl in *. rewrite Hd.
    rewrite dict_set_fresh.
    2:{ apply NoDup_app in Hnd as (_ & Hdisj & _). intros Hk.
        apply (Hdisj k Hk). apply list_elem_of_here. }
    rewrite IH; [rewrite <- app_assoc; reflexivity|].
    rewrite fmap_app. simpl. rewrite <- app_assoc. exact Hnd.
Qed.

(** Decoding what a save wrote gives the saved mapping back. *)
Lemma recover_dumps (m : pydict) :
  snapshot_wf m -> recover (Some (json_dumps (PDict m))) = m.
Proof.
  intros Hwf. unfold recover.
  destruct (String.eqb _ _) eqn:E.
  - apply String.eqb_eq in E. destruct (json_dumps_nonempty _ E).
  - rewrite json_loads_dumps by (apply snapshot_json_wf; exact Hwf).
    destruct Hwf as [Hnd Hrec]. apply load_items_fresh; assumption.
Qed.
End Lib.


(** ** The reference implementation satisfies the interface *)

Section RefJsonFacts.
Import RefJson.
Local Arguments String.append !_ _ / : simpl nomatch.

Lemma append_assoc (a b c : string) : (a +:+ b) +:+ c = a +:+ (b +:+ c).
Proof. induction a as [|x a IH]; simpl; [reflexivity|]. rewrite IH. reflexivity. Qed.

Lemma append_nil_r (a : string) : a +:+ EmptyString = a.
Proof. induction a as [|x a IH]; simpl; [reflexivity|]. rewrite IH. reflexivity. Qed.

Lemma length_append (a b : string) :
  String.length (a +:+ b) = (String.length a + String.length b)%nat.
Proof. induction a as [|x a IH]; simpl; [reflexivity|]. rewrite IH. reflexivity. Qed.

Lemma parse_escape_char (c : ascii) (s : string) :
  parse_string (escape_char c +:+ s) = cons_char c (parse_string s).
Proof.
  destruct c as [[] [] [] [] [] [] [] []]; reflexivity.
Qed.

Lemma parse_escape (s rest : string) :
  parse_string (escape s +:+ String dquote rest) = Some (s, rest).
Proof.
  induction s as [|c s IH].
  - reflexivity.
  - change (escape (String c s)) with (escape_char c +:+ escape s).
    rewrite append_assoc, parse_escape_char, IH. reflexivity.
Qed.

Lemma parse_dumps_str (s rest : string) :
  dumps_str s +:+ rest = String dquote (escape s +:+ String dquote rest).
Proof.
  unfold dumps_str.
  change (String dquote ((escape s +:+ String dquote EmptyString) +:+ rest)
          = String dquote (escape s +:+ String dquote rest)).
  rewrite append_assoc. reflexivity.
Qed.

Lemma delimited_digits (acc : N) (rest : string) :
  delimited rest = true -> parse_digits acc rest = (acc, rest).
Proof.
  destruct rest as [|c rest]; [reflexivity|]. simpl delimited.
  destruct c as [[] [] [] [] [] [] [] []]; try discriminate; reflexivity.
Qed.

Lemma delimited_fraction (rest : string) :
  delimited rest = true -> starts_fraction rest = false.
Proof.
  destruct rest as [|c rest]; [reflexivity|]. simpl.
  destruct c as [[] [] [] [] [] [] [] []]; try discriminate; reflexivity.
Qed.

Lemma parse_digits_uint (u : Decimal.uint) (acc : positive) (rest : string) :
  delimited rest = true ->
  parse_digits (Npos acc) (NilEmpty.string_of_uint u +:+ rest)
  = (Npos (Pos.of_uint_acc u acc), rest).
Proof.
  intros Hrest. revert acc.
  induction u as [|u IH|u IH|u IH|u IH|u IH|u IH|u IH|u IH|u IH|u IH]; intros acc;
    [apply delimited_digits; exact Hrest|..];
    simpl; rewrite <- IH; f_equal; lia.
Qed.

Lemma to_uint_head (p : positive) :
  match Pos.to_uint p with
  | Decimal.Nil | Decimal.D0 _ => False
  | _ => True
  end.
Proof.
  pose proof (DecimalPos.Unsigned.of_to p) as Hof.
  pose proof (DecimalPos.Unsigned.to_of (Pos.to_uint p)) as Hnorm.
  rewrite Hof in Hnorm. simpl N.to_uint in Hnorm.
  pose proof (DecimalPos.Unsigned.to_uint_nonzero p) as Hnz.
  destruct (Pos.to_uint p) as [|u|u|u|u|u|u|u|u|u|u] eqn:E; try exact I.
  - discriminate Hof.
  - unfold Decimal.unorm in Hnorm. simpl Decimal.nzhead in Hnorm.
    destruct (Decimal.nzhead u) eqn:Hh; try discriminate Hnorm.
    + exact (Hnz Hnorm).
    + exact (DecimalFacts.nzhead_nonzero _ _ Hh).
Qed.

Lemma parse_nat_pos (p : positive) (rest : string) :
  delimited rest = true ->
  parse_nat (NilEmpty.string_of_uint (Pos.to_uint p) +:+ rest) = Some (Npos p, rest).
Proof.
  intros Hrest.
  pose proof (DecimalPos.Unsigned.of_to p) as Hof.
  pose proof (to_uint_head p) as Hhead.
  destruct (Pos.to_uint p) as [|u|u|u|u|u|u|u|u|u|u]; try contradiction;
    simpl in Hof; injection Hof as <-;
    simpl NilEmpty.string_of_uint; simpl String.append; unfold parse_nat;
    match goal with
    | |- context [digit_value ?c] =>
        let v := eval vm_compute in (digit_value c) in change (digit_value c) with v
    end; cbv iota beta;
    rewrite parse_digits_uint by exact Hrest;
    rewrite delimited_fraction by exact Hrest; reflexivity.
Qed.

Lemma parse_int_str (z : Z) (rest : string) :
  delimited rest = true ->
  parse_int (py_int_str z +:+ rest) = Some (z, rest).
Proof.
  intros Hrest. unfold py_int_str.
  destruct z as [|p|p]; simpl Z.to_int.
  - simpl NilEmpty.string_of_int. simpl String.append.
    unfold parse_int, parse_nat.
    change (Ascii.eqb "0" "-") with false.
    change (digit_value "0") with (Some 0%N). cbv iota beta.
    rewrite delimited_fraction by exact Hrest. reflexivity.
  - simpl NilEmpty.string_of_int.
    pose proof (parse_nat_pos p rest Hrest) as Hp.
    pose proof (to_uint_head p) as Hhead.
    destruct (Pos.to_uint p) as [|u|u|u|u|u|u|u|u|u|u]; try contradiction;
      simpl NilEmpty.string_of_uint in *; simpl String.append in *; unfold parse_int;
      match goal with
      | |- context [Ascii.eqb ?c "-"] => change (Ascii.eqb c "-") with false
      end; cbv iota; rewrite Hp; reflexivity.
  - simpl NilEmpty.string_of_int. simpl String.append. unfold parse_int.
    change (Ascii.eqb "-" "-") with true. cbv iota.
    rewrite parse_nat_pos by exact Hrest. reflexivity.
Qed.

Lemma py_int_str_head (z : Z) :
  exists c t, py_int_str z = String c t /\ int_start c = true.
Proof.
  unfold py_int_str. destruct z as [|p|p]; simpl Z.to_int; simpl NilEmpty.string_of_int.
  - eexists _, _. split; reflexivity.
  - pose proof (to_uint_head p) as Hhead.
    destruct (Pos.to_uint p); try contradiction; eexists _, _; split; reflexivity.
  - eexists _, _. split; reflexivity.
Qed.

Lemma dumps_head (v : pyval) :
  exists c t, dumps v = String c t /\ value_start c = true.
Proof.
  destruct v as [|[]|z|s|l|d]; try (eexists _, _; split; reflexivity).
  destruct (py_int_str_head z) as (c & t & E & Hc).
  exists c, t. split; [exact E|]. unfold value_start. rewrite Hc. reflexivity.
Qed.

Lemma parse_value_skip (fuel : nat) (s : string) :
  parse_value fuel (String " " s) = parse_value fuel s.
Proof. destruct fuel; reflexivity. Qed.

Lemma parse_elements_S (g : nat) (s : string) (seen : list pyval) :
  parse_elements (S g) s seen
  = match parse_value g s with
    | Some (v, rest) =>
        match skip_ws rest with
        | String c rest' =>
            if Ascii.eqb c "," then parse_elements g rest' (v :: seen)
            else if Ascii.eqb c "]" then Some (rev (v :: seen), rest')
            else None
        | EmptyString => None
        end
    | None => None
    end.
Proof. reflexivity. Qed.

Lemma parse_elements_skip (g : nat) (s : string) (seen : list pyval) :
  parse_elements g (String " " s) seen = parse_elements g s seen.
Proof. destruct g; [reflexivity|]. rewrite !parse_elements_S, parse_value_skip. reflexivity. Qed.

Lemma parse_members_S (g : nat) (s : string) (seen : pydict) :
  parse_members (S g) s seen
  = match skip_ws s with
    | String q s1 =>
        if Ascii.eqb q dquote then
          match parse_string s1 with
          | Some (key, s2) =>
              match skip_ws s2 with
              | String colon s3 =>
                  if Ascii.eqb colon ":" then
                    match parse_value g s3 with
                    | Some (v, rest) =>
                        match skip_ws rest with
                        | String c rest' =>
                            if Ascii.eqb c "," then parse_members g rest' ((key, v) :: seen)
                            else if Ascii.eqb c "}" then Some (rev ((key, v) :: seen), rest')
                            else None
                        | EmptyString => None
                        end
                    | None => None
                    end
                  else None
              | EmptyString => None
              end
          | None => None
          end
        else None
    | EmptyString => None
    end.
Proof. reflexivity. Qed.

Lemma parse_value_int (f : nat) (c : ascii) (s : string) :
  int_start c = true ->
  parse_value (S f) (String c s)
  = match parse_int (String c s) with
    | Some (z, rest) => Some (PInt z, rest)
    | None => None
    end.
Proof.
  destruct c as [[] [] [] [] [] [] [] []]; intros Hc; try discriminate Hc; reflexivity.
Qed.

Lemma parse_value_list (f : nat) (c : ascii) (s : string) :
  value_start c = true ->
  parse_value (S f) (String "[" (String c s))
  = match parse_elements f (String c s) [] with
    | Some (l, rest) => Some (PList l, rest)
    | None => None
    end.
Proof.
  destruct c as [[] [] [] [] [] [] [] []]; intros Hc; try discriminate Hc; reflexivity.
Qed.

Lemma parse_value_dict (f : nat) (s : string) :
  parse_value (S f) (String "{" (String dquote s))
  = match parse_members f (String dquote s) [] with
    | Some (pairs, rest) => Some (PDict (dict_of_pairs pairs), rest)
    | None => None
    end.
Proof. reflexivity. Qed.

Lemma skip_ws_delimiter (c : ascii) (s : string) :
  delimited (String c s) = true -> skip_ws (String c s) = String c s.
Proof.
  simpl delimited.
  destruct c as [[] [] [] [] [] [] [] []]; intros Hc; try discriminate Hc; reflexivity.
Qed.

Lemma dumps_list_text (l : list pyval) (rest : string) :
  dumps (PList l) +:+ rest = String "[" (join ", " (map dumps l) +:+ String "]" rest).
Proof.
  change (dumps (PList l)) with ("[" +:+ join ", " (map dumps l) +:+ "]").
  simpl String.append. rewrite append_assoc. reflexivity.
Qed.

Lemma dumps_dict_text (d : pydict) (rest : string) :
  dumps (PDict d) +:+ rest
  = String "{" (join ", " (map member_text d) +:+ String "}" rest).
Proof.
  change (dumps (PDict d)) with ("{" +:+ join ", " (map member_text d) +:+ "}").
  simpl String.append. rewrite append_assoc. reflexivity.
Qed.

Lemma join_cons_text (p : string) (ps : list string) (close : ascii) (rest : string) :
  join ", " (p :: ps) +:+ String close rest
  = p +:+ match ps with
          | [] => String close rest
          | _ => String "," (String " " (join ", " ps +:+ String close rest))
          end.
Proof.
  destruct ps as [|q ps]; [reflexivity|].
  change (join ", " (p :: q :: ps)) with (p +:+ ", " +:+ join ", " (q :: ps)).
  rewrite !append_assoc. reflexivity.
Qed.

Section Step.
Variable n : nat.
Hypothesis IHvalue : forall g, (g < n)%nat -> forall v rest,
  (size v <= g)%nat -> json_wf v -> delimited rest = true ->
  parse_value g (dumps v +:+ rest) = Some (v, rest).

Lemma parse_elements_dumps (l : list pyval) :
  forall g seen rest,
    l <> [] -> (g <= n)%nat -> (list_size l <= g)%nat -> list_wf l ->
    parse_elements g (join ", " (map dumps l) +:+ String "]" rest) seen
    = Some (rev seen ++ l, rest).
Proof.
  induction l as [|x l IHl]; intros g seen rest Hne Hg Hsize Hwf; [contradiction|].
  simpl in Hsize. destruct Hwf as [Hx Hl].
  destruct g as [|g]; [lia|].
  change (map dumps (x :: l)) with (dumps x :: map dumps l).
  rewrite join_cons_text, parse_elements_S.
  rewrite IHvalue; [|lia|lia|exact Hx|destruct (map dumps l); reflexivity].
  destruct l as [|y l].
  - simpl map. cbv iota. rewrite skip_ws_delimiter by reflexivity.
    change (Ascii.eqb "]" ",") with false. change (Ascii.eqb "]" "]") with true.
    reflexivity.
  - change (map dumps (y :: l)) with (dumps y :: map dumps l). cbv iota.
    rewrite skip_ws_delimiter by reflexivity.
    change (Ascii.eqb "," ",") with true. cbv iota.
    rewrite parse_elements_skip.
    change (dumps y :: map dumps l) with (map dumps (y :: l)).
    rewrite IHl; [|discriminate|lia|fold (list_size (y :: l)); lia|exact Hl].
    simpl. rewrite <- app_assoc. reflexivity.
Qed.

Lemma parse_members_skip (g : nat) (s : string) (seen : pydict) :
  parse_members g (String " " s) seen = parse_members g s seen.
Proof. destruct g; reflexivity. Qed.

Lemma member_text_unfold (k : string) (x : pyval) (after : string) :
  member_text (k, x) +:+ after
  = String dquote
      (escape k +:+ String dquote (String ":" (String " " (dumps x +:+ after)))).
Proof.
  unfold member_text. rewrite append_assoc, parse_dumps_str.
  rewrite append_assoc. reflexivity.
Qed.

Lemma parse_members_dumps (d : pydict) :
  forall g seen rest,
    d <> [] -> (g <= n)%nat -> (dict_size d <= g)%nat -> dict_wf d ->
    parse_members g (join ", " (map member_text d) +:+ String "}" rest) seen
    = Some (rev seen ++ d, rest).
Proof.
  induction d as [|[k x] d IHd]; intros g seen rest Hne Hg Hsize Hwf; [contradiction|].
  simpl in Hsize. destruct Hwf as [Hx Hd].
  destruct g as [|g]; [lia|].
  change (map member_text ((k, x) :: d)) with (member_text (k, x) :: map member_text d).
  rewrite join_cons_text, member_text_unfold, parse_members_S.
  change (skip_ws (String dquote ?s)) with (String dquote s).
  change (Ascii.eqb dquote dquote) with true. cbv iota.
  rewrite parse_escape.
  change (skip_ws (String ":" ?s)) with (String ":" s).
  change (Ascii.eqb ":" ":") with true. cbv iota.
  rewrite parse_value_skip.
  rewrite IHvalue; [|lia|lia|exact Hx|destruct (map member_text d); reflexivity].
  destruct d as [|[k' y] d].
  - simpl map. cbv iota. rewrite skip_ws_delimiter by reflexivity.
    change (Ascii.eqb "}" ",") with false. change (Ascii.eqb "}" "}") with true.
    reflexivity.
  - change (map member_text ((k', y) :: d))
      with (member_text (k', y) :: map member_text d). cbv iota.
    rewrite skip_ws_delimiter by reflexivity.
    change (Ascii.eqb "," ",") with true. cbv iota.
    rewrite parse_members_skip.
    change (member_text (k', y) :: map member_text d)
      with (map member_text ((k', y) :: d)).
    rewrite IHd; [|discriminate|lia|fold (dict_size ((k', y) :: d)); lia|exact Hd].
    simpl. rewrite <- app_assoc. reflexivity.
Qed.
End Step.

Lemma dict_of_pairs_fresh (d : pydict) : NoDup d.*1 -> dict_of_pairs d = d.
Proof.
  unfold dict_of_pairs.
  assert (Hgen : forall acc : pydict, NoDup (acc.*1 ++ d.*1) ->
            fold_left (fun m kv => dict_set kv.1 kv.2 m) d acc = acc ++ d).
  { induction d as [|[k v] d IH]; intros acc Hnd; simpl.
    - rewrite app_nil_r. reflexivity.
    - rewrite dict_set_fresh.
      2:{ apply NoDup_app in Hnd as (_ & Hdisj & _). intros Hk.
          apply (Hdisj k Hk). apply list_elem_of_here. }
      rewrite IH; [rewrite <- app_assoc; reflexivity|].
      rewrite fmap_app. simpl. rewrite <- app_assoc. exact Hnd. }
  intros Hnd. apply (Hgen []). exact Hnd.
Qed.

Lemma parse_value_dumps (fuel : nat) :
  forall v rest,
    (size v <= fuel)%nat -> json_wf v -> delimited rest = true ->
    parse_value fuel (dumps v +:+ rest) = Some (v, rest).
Proof.
  induction fuel as [fuel IH] using (well_founded_induction lt_wf).
  intros v rest Hsize Hwf Hrest.
  destruct fuel as [|f]; [destruct v; simpl in Hsize; lia|].
  destruct v as [|b|z|s|l|d].
  - reflexivity.
  - destruct b; reflexivity.
  - change (dumps (PInt z)) with (py_int_str z).
    pose proof (parse_int_str z rest Hrest) as Hp.
    destruct (py_int_str_head z) as (c & t & E & Hc).
    rewrite E in *. simpl String.append in *.
    rewrite parse_value_int by exact Hc. rewrite Hp. reflexivity.
  - change (dumps (PStr s)) with (dumps_str s). rewrite parse_dumps_str.
    change (parse_value (S f) (String dquote ?x))
      with (match parse_string x with
            | Some (str, r) => Some (PStr str, r)
            | None => None
            end).
    rewrite parse_escape. reflexivity.
  - destruct l as [|x l]; [reflexivity|].
    rewrite dumps_list_text.
    change (map dumps (x :: l)) with (dumps x :: map dumps l).
    destruct (dumps_head x) as (c & t & E & Hc).
    pose proof (parse_elements_dumps (S f) IH (x :: l) f [] rest) as Hl.
    change (map dumps (x :: l)) with (dumps x :: map dumps l) in Hl.
    rewrite join_cons_text in *. rewrite E in *. simpl String.append in *.
    rewrite parse_value_list by exact Hc.
    rewrite Hl; [reflexivity|discriminate|lia| |exact Hwf].
    simpl in Hsize. unfold list_size. simpl. lia.
  - destruct d as [|[k x] d]; [reflexivity|].
    rewrite dumps_dict_text.
    pose proof (parse_members_dumps (S f) IH ((k, x) :: d) f [] rest) as Hd.
    change (map member_text ((k, x) :: d))
      with (member_text (k, x) :: map member_text d) in *.
    rewrite join_cons_text, member_text_unfold in *.
    rewrite parse_value_dict.
    destruct Hwf as [Hnd Hwf].
    rewrite Hd; [|discriminate|lia| |exact Hwf].
    + simpl app. rewrite dict_of_pairs_fresh by exact Hnd. reflexivity.
    + simpl in Hsize. unfold dict_size. simpl. lia.
Qed.

Lemma join_length_cons (p : string) (ps : list string) :
  String.length (join ", " (p :: ps))
  = (String.length p + match ps with
                       | [] => 0
                       | _ => 2 + String.length (join ", " ps)
                       end)%nat.
Proof.
  destruct ps as [|q ps]; [simpl; lia|].
  change (join ", " (p :: q :: ps)) with (p +:+ ", " +:+ join ", " (q :: ps)).
  rewrite !length_append. reflexivity.
Qed.

Lemma size_le_length (n : nat) :
  forall v, (size v <= n)%nat -> (size v <= String.length (dumps v))%nat.
Proof.
  induction n as [n IH] using (well_founded_induction lt_wf).
  intros v Hn. destruct v as [|[]|z|s|l|d]; try (simpl; lia).
  - destruct (py_int_str_head z) as (c & t & E & _).
    change (dumps (PInt z)) with (py_int_str z). rewrite E. simpl. lia.
  - change (dumps (PList l)) with ("[" +:+ join ", " (map dumps l) +:+ "]").
    simpl String.append. simpl String.length. rewrite length_append.
    change (size (PList l)) with (S (list_size l)) in *.
    assert (Hl : (list_size l <= String.length (join ", " (map dumps l)) + 1)%nat);
      [|simpl; lia].
    assert (Hsub : (list_size l < n)%nat) by lia. clear Hn.
    induction l as [|x l IHl]; [simpl; lia|].
    change (map dumps (x :: l)) with (dumps x :: map dumps l).
    rewrite join_length_cons.
    change (list_size (x :: l)) with (S (size x + list_size l)) in *.
    pose proof (IH (size x) ltac:(lia) x ltac:(lia)) as Hx.
    specialize (IHl ltac:(lia)).
    destruct l as [|y l]; [simpl in *; lia|].
    change (map dumps (y :: l)) with (dumps y :: map dumps l) in *.
    cbv iota. lia.
  - change (dumps (PDict d)) with ("{" +:+ join ", " (map member_text d) +:+ "}").
    simpl String.append. simpl String.length. rewrite length_append.
    change (size (PDict d)) with (S (dict_size d)) in *.
    assert (Hd : (dict_size d <= String.length (join ", " (map member_text d)) + 1)%nat);
      [|simpl; lia].
    assert (Hsub : (dict_size d < n)%nat) by lia. clear Hn.
    induction d as [|[k x] d IHd]; [simpl; lia|].
    change (map member_text ((k, x) :: d))
      with (member_text (k, x) :: map member_text d).
    rewrite join_length_cons.
    change (dict_size ((k, x) :: d)) with (S (size x + dict_size d)) in *.
    pose proof (IH (size x) ltac:(lia) x ltac:(lia)) as Hx.
    specialize (IHd ltac:(lia)).
    assert (Hm : (String.length (dumps x) <= String.length (member_text (k, x)))%nat).
    { unfold member_text. rewrite !length_append. lia. }
    destruct d as [|[k' y] d]; [simpl in *; lia|].
    change (map member_text ((k', y) :: d))
      with (member_text (k', y) :: map member_text d) in *.
    cbv iota. lia.
Qed.

Lemma loads_dumps (v : pyval) : json_wf v -> loads (dumps v) = Some v.
Proof.
  intros Hwf. unfold loads.
  rewrite <- (append_nil_r (dumps v)) at 2.
  rewrite parse_value_dumps; [reflexivity| |exact Hwf|reflexivity].
  pose proof (size_le_length (size v) v ltac:(lia)). lia.
Qed.

Lemma dumps_nonempty (v : pyval) : dumps v <> EmptyString.
Proof. destruct (dumps_head v) as (c & t & E & _). rewrite E. discriminate. Qed.
End RefJsonFacts.

#[global] Instance ref_json : JsonCodec := {|
  json_dumps := RefJson.dumps;
  json_loads := RefJson.loads;
  json_dumps_nonempty := dumps_nonempty;
  json_loads_dumps := loads_dumps
|}.


Section LibRuns.
Import DatabaseLib.
Context `{JsonCodec}.

Lemma save_subjects_snapshot_run (items : list pyval) (slot_count : Z) (st : state) :
  Z.of_nat (length items) = slot_count ->
  Forall (fun item => slot_ok item = true) items ->
  save_subjects_snapshot (PList items) slot_count st
  = (Ok tt,
     State (World (Db (Some (<[SUBJECTS_KEY := json_dumps (PDict (normalized_of 0 items []))]>
                               (entries (disk (store st))))))
                  (open_connections (store st)))
           (normalized_of 0 items [])).
Proof.
  intros Hlen Hok. unfold save_subjects_snapshot, _normalize_subject_payload.
  rewrite Hlen, Z.eqb_refl. simpl negb. cbv iota.
  rewrite normalize_items_run by exact Hok.
  rewrite save_subject_run by discriminate. reflexivity.
Qed.

Lemma load_subjects_snapshot_run (slot_count : Z) (st : state) :
  load_subjects_snapshot slot_count st
  = (Ok (snapshot_view slot_count (recover (entries (disk (store st)) !! SUBJECTS_KEY))),
     State (World (Db (Some (entries (disk (store st))))) (open_connections (store st)))
           (recover (entries (disk (store st)) !! SUBJECTS_KEY))).
Proof.
  unfold load_subjects_snapshot, bind. rewrite lib_init_db_run. reflexivity.
Qed.

Lemma snapshot_view_length (slot_count : Z) (mirror : pydict) :
  length (snapshot_view slot_count mirror) = Z.to_nat slot_count.
Proof. unfold snapshot_view. rewrite length_map. apply length_seqZ. Qed.

Lemma snapshot_view_lookup (slot_count : Z) (mirror : pydict) (i : nat) :
  Z.of_nat i < slot_count ->
  snapshot_view slot_count mirror !! i
  = Some (py_of_option (dict_get (py_int_str (Z.of_nat i)) mirror)).
Proof.
  intros Hi. unfold snapshot_view.
  rewrite list_lookup_fmap, lookup_seqZ_lt by exact Hi. reflexivity.
Qed.


End LibRuns.

(** ** Examples *)

Example py_str_samples :
  py_str (PList [PInt (-12); PStr "a'b"; PNone; PDict [("k", PBool true)]])
  = String "[" ("-12, " +:+ String dquote ("a'b" +:+ String dquote ", None, {'k': True}]"))
  /\ strip (String (chr 9) " a b  ") = "a b"
  /\ strip (String (chr 160) (String (chr 28) EmptyString)) = EmptyString.
Proof. repeat split; vm_compute; reflexivity. Qed.

(** * Properties claimed by the specification *)











(** ** Shape checks of the write paths *)




(** The same element stops the loop of Database.py with an
    [AttributeError], raised by [item.get]. *)
Lemma save_items_rejects_truthy_non_dict
    (before after : list pyval) (item : pyval) (slot : Z)
    (t : gmap Z DatabaseApp.slot_row) (g : option (gmap Z string)) :
  Forall (fun x => slot_ok x = true) before ->
  (forall j, slot <= j -> t !! j = None) ->
  py_truthy item = true -> is_dict item = false ->
  fst (DatabaseApp.save_items slot (before ++ item :: after) (DatabaseApp.Db (Some t) g))
  = Raise (AttributeError ("'" +:+ py_type_name item +:+ "' object has no attribute 'get'")).
Proof.
  intros Hbefore Hfree Htrue Hdict. revert slot t Hfree.
  induction Hbefore as [|x before Hx _ IH]; intros slot t Hfree.
  - simpl. rewrite Htrue. simpl.
    destruct item; try discriminate Hdict; reflexivity.
  - change ((x :: before) ++ item :: after) with (x :: (before ++ item :: after)).
    pose proof (save_items_run [x] slot t g ltac:(repeat constructor; exact Hx) Hfree) as Hone.
    simpl DatabaseApp.save_items in Hone |- *.
    destruct (py_truthy x) eqn:Ex; simpl negb in *; cbv iota in *.
    + destruct x as [| | | | |d]; unfold slot_ok in Hx; rewrite Ex in Hx;
        try discriminate Hx.
      unfold bind, lift in Hone |- *. simpl in Hone |- *.
      destruct (DatabaseApp.insert_slot slot _ _) as [[[]|e] d'] eqn:Eins;
        [|discriminate Hone].
      injection Hone as ->. apply IH.
      intros j Hj. destruct d as [|kv d]; [discriminate Ex|]. simpl.
      rewrite lookup_insert_ne by lia. apply Hfree. lia.
    + apply IH. intros j Hj. apply Hfree. lia.
Qed.

(** C3, where the code departs from it: both write paths accept a
    five-element list whose first element is the number 0, which is neither
    [null] nor an object, and so do they for [false], the empty string and
    the empty list; Database.py answers an element that is true in a test
    and is not an object with an [AttributeError], which its handler does
    not catch. *)
Theorem falsy_non_object_is_accepted :
  let payload (x : pyval) := PList [x; PNone; PNone; PNone; PNone] in
  DatabaseLib._normalize_subject_payload (payload (PInt 0)) 5 = Ok []
  /\ DatabaseLib._normalize_subject_payload (payload (PBool false)) 5 = Ok []
  /\ DatabaseLib._normalize_subject_payload (payload (PStr EmptyString)) 5 = Ok []
  /\ DatabaseLib._normalize_subject_payload (payload (PList [])) 5 = Ok []
  /\ fst (DatabaseApp._save_subjects (payload (PInt 0)) app_start) = Ok tt
  /\ fst (DatabaseApp.set_subjects (payload (PInt 0)) app_start)
     = Ok (DatabaseApp.Response (PDict [("status", PStr "ok")]) 200)
  /\ fst (DatabaseApp._save_subjects (payload (PStr "maths")) app_start)
     = Raise (AttributeError "'str' object has no attribute 'get'")
  /\ fst (DatabaseApp.set_subjects (payload (PStr "maths")) app_start)
     = Raise (AttributeError "'str' object has no attribute 'get'").
Proof. cbv zeta. repeat split; vm_compute; reflexivity. Qed.

(** ** POST and GET /api/subjects *)




(** ** Reading the snapshot of database.py *)

Section SnapshotRead.
Import DatabaseLib.
Context `{JsonCodec}.




End SnapshotRead.



(** ** Connections and transactions *)

(** database.py: the connection is closed on both exits, and a block that
    raises leaves the world as it was. *)
Lemma lib_connection_released {A} (body : stateful DatabaseLib.db A)
    (w : world DatabaseLib.db) :
  open_connections (snd (DatabaseLib._get_connection body w)) = open_connections w.
Proof.
  unfold DatabaseLib._get_connection, run_block. simpl.
  destruct (body (disk w)) as [[a|e] d]; reflexivity.
Qed.

Lemma lib_commit_or_rollback {A} (body : stateful DatabaseLib.db A)
    (w : world DatabaseLib.db) :
  match body (disk w) with
  | (Ok a, d) => DatabaseLib._get_connection body w = (Ok a, World d (open_connections w))
  | (Raise e, _) => DatabaseLib._get_connection body w = (Raise e, w)
  end.
Proof.
  destruct (body (disk w)) as [[a|e] d] eqn:E.
  - apply _get_connection_ok. exact E.
  - eapply _get_connection_raise. exact E.
Qed.

(** Every operation of database.py returns with the connections it opened
    closed. *)
Lemma lib_operations_release `{JsonCodec} (name value : string) (payload : pyval)
    (slot_count : Z) (st : DatabaseLib.state) :
  let w := DatabaseLib.store st in
  let opened {A} (r : result A * DatabaseLib.state) :=
    open_connections (DatabaseLib.store (snd r)) in
  open_connections (snd (DatabaseLib.init_db w)) = open_connections w
  /\ open_connections (snd (DatabaseLib.save_subject name value w)) = open_connections w
  /\ open_connections (snd (DatabaseLib.load_subjects w)) = open_connections w
  /\ opened (DatabaseLib.save_subjects_snapshot payload slot_count st) = open_connections w
  /\ opened (DatabaseLib.load_subjects_snapshot slot_count st) = open_connections w.
Proof.
  cbv zeta.
  assert (Hsave : forall n v w0,
            open_connections (snd (DatabaseLib.save_subject n v w0)) = open_connections w0).
  { intros n v w0. destruct (decide (n = EmptyString)) as [->|Hne]; [reflexivity|].
    rewrite save_subject_run by exact Hne. reflexivity. }
  split; [rewrite lib_init_db_run; reflexivity|].
  split; [apply Hsave|].
  split; [rewrite load_subjects_run; reflexivity|].
  split; [|rewrite load_subjects_snapshot_run; reflexivity].
  unfold DatabaseLib.save_subjects_snapshot.
  destruct (DatabaseLib._normalize_subject_payload payload slot_count); [|reflexivity].
  specialize (Hsave DatabaseLib.SUBJECTS_KEY
                (json_dumps (PDict a)) (DatabaseLib.store st)).
  destruct (DatabaseLib.save_subject _ _ _). exact Hsave.
Qed.

(** Database.py: same commit and rollback, but the connection is never
    closed. *)
Lemma app_commit_or_rollback {A} (body : stateful DatabaseApp.db A)
    (w : world DatabaseApp.db) :
  match body (disk w) with
  | (Ok a, d) =>
      DatabaseApp.with_connection body w = (Ok a, World d (S (open_connections w)))
  | (Raise e, _) =>
      DatabaseApp.with_connection body w = (Raise e, World (disk w) (S (open_connections w)))
  end.
Proof.
  destruct (body (disk w)) as [[a|e] d] eqn:E.
  - apply with_connection_ok. exact E.
  - eapply with_connection_raise. exact E.
Qed.

Lemma app_connection_stays_open {A} (body : stateful DatabaseApp.db A)
    (w : world DatabaseApp.db) :
  open_connections (snd (DatabaseApp.with_connection body w)) = S (open_connections w).
Proof.
  pose proof (app_commit_or_rollback body w) as Hrun.
  destruct (body (disk w)) as [[a|e] d]; rewrite Hrun; reflexivity.
Qed.

(** A write of Database.py that raises leaves the rows of both tables as
    they were; only the tables [init_db] creates are new. *)
Lemma _save_subjects_failure (payload : pyval) (w w' : world DatabaseApp.db) (e : exn) :
  DatabaseApp._save_subjects payload w = (Raise e, w') ->
  disk w' = ensured (disk w).
Proof.
  unfold DatabaseApp._save_subjects. unfold bind at 1. rewrite init_db_run.
  unfold bind at 1. unfold lift.
  destruct (py_len payload) as [n|e']; [|intros [= _ <-]; reflexivity].
  destruct (negb (n =? DatabaseApp.SLOT_COUNT)); [intros [= _ <-]; reflexivity|].
  match goal with
  | |- DatabaseApp.with_connection ?body ?w0 = _ -> _ =>
      pose proof (app_commit_or_rollback body w0) as Hrun;
      destruct (body (disk w0)) as [[a|e0] d]; rewrite Hrun
  end.
  - discriminate.
  - intros [= _ <-]. reflexivity.
Qed.

(** C6, where the code departs from it: no operation of Database.py closes
    its connection.  A successful [save_goal] or [load_goal] on a new
    database leaves two connections open (one of [init_db], one of its
    own), and so does a [_save_subjects] that raises after its first INSERT;
    that INSERT is rolled back.  The same calls of database.py leave none
    open. *)
Theorem database_app_leaves_connections_open :
  open_connections (snd (DatabaseApp.save_goal (PStr "pass") app_start)) = 2%nat
  /\ open_connections (snd (DatabaseApp.load_goal app_start)) = 2%nat
  /\ (let r := DatabaseApp._save_subjects
                 (PList [PDict [("subject", PStr "maths")]; PStr "x"; PNone; PNone; PNone])
                 app_start in
      fst r = Raise (AttributeError "'str' object has no attribute 'get'")
      /\ open_connections (snd r) = 2%nat
      /\ slot_rows (disk (snd r)) = ∅)
  /\ open_connections
       (snd (DatabaseLib.save_subject "subjects" "{}" (DatabaseLib.store lib_start)))
     = 0%nat.
Proof.
  split; [reflexivity|]. split; [reflexivity|]. split; [|reflexivity].
  cbv zeta. split; [vm_compute; reflexivity|]. split; vm_compute; reflexivity.
Qed.

(** ** The mirror of database.py *)

Section Mirror.
Import DatabaseLib.
Context `{JsonCodec}.

Lemma normalize_items_accepts (items : list pyval) (index : Z) (acc m : pydict) :
  normalize_items index items acc = Ok m ->
  Forall (fun item => slot_ok item = true) items.
Proof.
  revert index acc. induction items as [|item items IH]; intros index acc Hm;
    [constructor|].
  simpl in Hm.
  destruct (py_truthy item) eqn:E; simpl in Hm.
  - destruct item; try discriminate Hm.
    constructor; [unfold slot_ok; rewrite E; reflexivity|]. exact (IH _ _ Hm).
  - constructor; [unfold slot_ok; rewrite E; reflexivity|]. exact (IH _ _ Hm).
Qed.

(** A save that returns has stored the text of the mapping it left in
    the mirror. *)
Lemma save_subjects_snapshot_inv (payload : pyval) (slot_count : Z) (st st1 : state) :
  save_subjects_snapshot payload slot_count st = (Ok tt, st1) ->
  exists items,
    payload = PList items
    /\ Z.of_nat (length items) = slot_count
    /\ Forall (fun item => slot_ok item = true) items
    /\ _normalize_subject_payload payload slot_count = Ok (normalized_of 0 items []).
Proof.
  unfold save_subjects_snapshot.
  destruct (_normalize_subject_payload payload slot_count) as [m|e] eqn:E;
    [|discriminate].
  intros _. unfold _normalize_subject_payload in E.
  destruct payload as [| | | |items|]; try discriminate E.
  destruct (Z.of_nat (length items) =? slot_count) eqn:Hlen; [|discriminate E].
  simpl in E. apply Z.eqb_eq in Hlen.
  pose proof (normalize_items_accepts _ _ _ _ E) as Hok.
  exists items. split; [reflexivity|]. split; [exact Hlen|]. split; [exact Hok|].
  rewrite <- E. apply normalize_items_run. exact Hok.
Qed.

(** A save that raises leaves the mirror and the store as they were. *)
Lemma save_subjects_snapshot_raise (payload : pyval) (slot_count : Z) (st st1 : state)
    (e : exn) :
  save_subjects_snapshot payload slot_count st = (Raise e, st1) -> st1 = st.
Proof.
  unfold save_subjects_snapshot.
  destruct (_normalize_subject_payload payload slot_count) as [m|e'];
    [|intros [= _ <-]; reflexivity].
  rewrite save_subject_run by discriminate. discriminate.
Qed.
End Mirror.

(** C7, as stated, fails: [load_subjects_snapshot] assigns the mirror too.
    In a process that starts on a database file holding a saved snapshot
    the mirror is empty, and the first load fills it. *)
Lemma load_writes_the_mirror :
  let saved := snd (DatabaseLib.save_subjects_snapshot
                      (PList [PDict [("subject", PStr "maths")]; PNone; PNone; PNone; PNone])
                      DatabaseLib.SLOT_COUNT lib_start) in
  let restarted := DatabaseLib.State (DatabaseLib.store saved) [] in
  DatabaseLib.subjects
    (snd (DatabaseLib.load_subjects_snapshot DatabaseLib.SLOT_COUNT restarted))
  <> DatabaseLib.subjects restarted.
Proof. vm_compute. intros E. discriminate E. Qed.

(** C7, amended: after a successful [save_subjects_snapshot] the mirror is
    the normalized mapping of the payload and the text stored under
    "subjects" is the JSON text of the mirror; a load that follows leaves the
    mirror equal to it.  The mirror is written by [save_subjects_snapshot]
    and by [load_subjects_snapshot], which replaces it by the mapping
    recovered from the stored text. *)
Theorem mirror_follows_the_store `{JsonCodec} (payload : pyval) (slot_count : Z)
    (st st1 : DatabaseLib.state) :
  DatabaseLib.save_subjects_snapshot payload slot_count st = (Ok tt, st1) ->
  DatabaseLib._normalize_subject_payload payload slot_count
  = Ok (DatabaseLib.subjects st1)
  /\ entries (disk (DatabaseLib.store st1)) !! DatabaseLib.SUBJECTS_KEY
     = Some (json_dumps (PDict (DatabaseLib.subjects st1)))
  /\ (forall n, DatabaseLib.subjects (snd (DatabaseLib.load_subjects_snapshot n st1))
                = DatabaseLib.subjects st1)
  /\ (forall n st',
        DatabaseLib.subjects (snd (DatabaseLib.load_subjects_snapshot n st'))
        = DatabaseLib.recover
            (entries (disk (DatabaseLib.store st')) !! DatabaseLib.SUBJECTS_KEY)).
Proof.
  intros Hsave.
  destruct (save_subjects_snapshot_inv _ _ _ _ Hsave) as (items & -> & Hlen & Hok & Hnorm).
  rewrite save_subjects_snapshot_run in Hsave by assumption.
  injection Hsave as <-. cbn [DatabaseLib.subjects DatabaseLib.store disk].
  change (entries (DatabaseLib.Db (Some ?t))) with t.
  rewrite lookup_insert_eq.
  split; [exact Hnorm|]. split; [reflexivity|]. split.
  - intros n. rewrite load_subjects_snapshot_run.
    cbn [DatabaseLib.subjects DatabaseLib.store disk snd].
    change (entries (DatabaseLib.Db (Some ?t))) with t.
    rewrite lookup_insert_eq.
    apply recover_dumps. apply normalized_of_wf. split; constructor.
  - intros n st'. rewrite load_subjects_snapshot_run. reflexivity.
Qed.

Lemma mirror_follows_the_store_witness :
  let payload := PList [PDict [("subject", PStr " maths ")]; PNone; PNone; PNone; PNone] in
  let st1 := snd (DatabaseLib.save_subjects_snapshot payload 5 lib_start) in
  DatabaseLib._normalize_subject_payload payload 5 = Ok (DatabaseLib.subjects st1)
  /\ entries (disk (DatabaseLib.store st1)) !! DatabaseLib.SUBJECTS_KEY
     = Some (json_dumps (PDict (DatabaseLib.subjects st1)))
  /\ (forall n, DatabaseLib.subjects (snd (DatabaseLib.load_subjects_snapshot n st1))
                = DatabaseLib.subjects st1)
  /\ (forall n st',
        DatabaseLib.subjects (snd (DatabaseLib.load_subjects_snapshot n st'))
        = DatabaseLib.recover
            (entries (disk (DatabaseLib.store st')) !! DatabaseLib.SUBJECTS_KEY)).
Proof.
  apply (mirror_follows_the_store
           (PList [PDict [("subject", PStr " maths ")]; PNone; PNone; PNone; PNone]) 5
           lib_start).
  vm_compute. reflexivity.
Defined.

(** ** The goal *)

Section GoalStore.
Import DatabaseApp.

Lemma load_goal_run (w : world db) :
  load_goal w
  = (Ok (default EmptyString (goal_rows (disk w) !! 1)),
     World (ensured (disk w)) (S (S (open_connections w)))).
Proof.
  unfold load_goal. unfold bind at 1. rewrite init_db_run.
  unfold bind at 1. erewrite with_connection_ok; [|reflexivity].
  unfold ret, goal_rows. simpl.
  destruct (default ∅ (goals (disk w)) !! 1); reflexivity.
Qed.

Lemma goal_rows_some (s : option (gmap Z slot_row)) (t : gmap Z string) :
  goal_rows (Db s (Some t)) = t.
Proof. reflexivity. Qed.

Lemma goal_text_bind (goal : pyval) :
  match goal_text goal with
  | Some text =>
      exists v, sql_bind goal = Ok v /\ text_not_null "goals.goal" v = Ok text
  | None =>
      (exists e, sql_bind goal = Raise e)
      \/ (exists v e, sql_bind goal = Ok v /\ text_not_null "goals.goal" v = Raise e)
  end.
Proof.
  destruct goal as [|[]|z|s|l|d]; simpl.
  - right. eexists _, _. split; reflexivity.
  - eexists. split; reflexivity.
  - eexists. split; reflexivity.
  - destruct ((- 2 ^ 63 <=? z) && (z <? 2 ^ 63)).
    + eexists. split; reflexivity.
    + left. eexists. reflexivity.
  - eexists. split; reflexivity.
  - left. eexists. reflexivity.
  - left. eexists. reflexivity.
Qed.

Lemma save_goal_stores (goal : pyval) (text : string) (w : world db) :
  goal_text goal = Some text ->
  save_goal goal w
  = (Ok tt, World (Db (Some (slot_rows (disk w))) (Some (<[1 := text]> (goal_rows (disk w)))))
                  (S (S (open_connections w)))).
Proof.
  intros Htext. pose proof (goal_text_bind goal) as Hbind. rewrite Htext in Hbind.
  destruct Hbind as (v & Hv & Ht).
  unfold save_goal. unfold bind at 1. rewrite init_db_run.
  erewrite with_connection_ok; [reflexivity|].
  unfold upsert_goal. rewrite Hv. simpl. rewrite Ht. reflexivity.
Qed.

Lemma save_goal_refuses (goal : pyval) (w : world db) :
  goal_text goal = None ->
  exists e,
    save_goal goal w = (Raise e, World (ensured (disk w)) (S (S (open_connections w)))).
Proof.
  intros Htext. pose proof (goal_text_bind goal) as Hbind. rewrite Htext in Hbind.
  unfold save_goal. unfold bind at 1. rewrite init_db_run.
  destruct Hbind as [(e & He)|(v & e & Hv & He)]; exists e;
    (erewrite with_connection_raise; [reflexivity|]);
    unfold upsert_goal; rewrite ?He, ?Hv; simpl; rewrite ?He; reflexivity.
Qed.
End GoalStore.

(** C8: [load_goal] returns the empty string while the goal row is absent,
    in particular on a new database; [save_goal] accepts every string, the
    empty one included; after [save_goal(x)], [load_goal] returns [x], and
    after a later [save_goal(y)] it returns [y]: the single row with id 1
    is overwritten. *)
Theorem goal_roundtrip (x y : string) (w : world DatabaseApp.db) :
  (goal_rows (disk w) !! 1 = None -> fst (DatabaseApp.load_goal w) = Ok EmptyString)
  /\ fst (DatabaseApp.load_goal app_start) = Ok EmptyString
  /\ exists w1 w2 w3 w4,
       DatabaseApp.save_goal (PStr x) w = (Ok tt, w1)
       /\ DatabaseApp.load_goal w1 = (Ok x, w2)
       /\ DatabaseApp.save_goal (PStr y) w2 = (Ok tt, w3)
       /\ DatabaseApp.load_goal w3 = (Ok y, w4)
       /\ goal_rows (disk w1) = <[1 := x]> (goal_rows (disk w))
       /\ goal_rows (disk w3) = <[1 := y]> (goal_rows (disk w)).
Proof.
  split; [|split].
  - intros Habsent. rewrite load_goal_run, Habsent. reflexivity.
  - reflexivity.
  - eexists _, _, _, _.
    split; [apply save_goal_stores; reflexivity|].
    split; [rewrite load_goal_run; cbn [disk]; rewrite goal_rows_some, lookup_insert_eq;
            reflexivity|].
    split; [apply save_goal_stores; reflexivity|].
    split; [rewrite load_goal_run; cbn [disk]; rewrite goal_rows_some, lookup_insert_eq;
            reflexivity|].
    split; [reflexivity|].
    cbn [disk]. unfold ensured. rewrite !goal_rows_some.
    apply insert_insert_eq.
Qed.

Lemma goal_roundtrip_witness :
  fst (DatabaseApp.load_goal app_start) = Ok EmptyString
  /\ fst (DatabaseApp.load_goal app_start) = Ok EmptyString
  /\ exists w1 w2 w3 w4,
       DatabaseApp.save_goal (PStr "x") app_start = (Ok tt, w1)
       /\ DatabaseApp.load_goal w1 = (Ok "x", w2)
       /\ DatabaseApp.save_goal (PStr EmptyString) w2 = (Ok tt, w3)
       /\ DatabaseApp.load_goal w3 = (Ok EmptyString, w4)
       /\ goal_rows (disk w1) = <[1 := "x"]> (goal_rows (disk app_start))
       /\ goal_rows (disk w3) = <[1 := EmptyString]> (goal_rows (disk app_start)).
Proof.
  destruct (goal_roundtrip "x" EmptyString app_start) as (Habsent & Hnew & Hrun).
  split; [apply Habsent; reflexivity|]. split; [exact Hnew|exact Hrun].
Defined.

(** ** Entries of database.py *)

Section Entries.
Import DatabaseLib.

#[local] Instance entry_le_total : Total entry_le.
Proof. intros a b. unfold entry_le. apply (total String.le). Qed.

Lemma sorted_entries (t : gmap string string) :
  let rows := merge_sort entry_le (map_to_list t) in
  Sorted entry_le rows
  /\ NoDup rows.*1
  /\ forall k v, (k, v) ∈ rows <-> t !! k = Some v.
Proof.
  cbv zeta.
  assert (Hperm : merge_sort entry_le (map_to_list t) ≡ₚ map_to_list t)
    by apply merge_sort_Permutation.
  split; [apply (Sorted_merge_sort entry_le)|]. split.
  - rewrite Hperm. apply NoDup_fst_map_to_list.
  - intros k v. rewrite Hperm. apply elem_of_map_to_list.
Qed.
End Entries.

(** C9: [save_subject] raises a [ValueError] for the empty name and leaves
    the store as it was; for every other name it returns, the entry of that
    name now holds the value (inserted if absent, overwritten otherwise,
    the other entries unchanged), and [load_subjects] then returns the
    entries in the order of their names, each name once, the pair of the
    name and the value among them. *)
Theorem save_subject_contract (name value : string) (w : world DatabaseLib.db) :
  (name = EmptyString ->
   DatabaseLib.save_subject name value w
   = (Raise (ValueError "name must be a non-empty string."), w))
  /\ (name <> EmptyString ->
      exists w1 rows w2,
        DatabaseLib.save_subject name value w = (Ok tt, w1)
        /\ entries (disk w1) = <[name := value]> (entries (disk w))
        /\ DatabaseLib.load_subjects w1 = (Ok rows, w2)
        /\ (name, value) ∈ rows
        /\ Sorted DatabaseLib.entry_le rows
        /\ NoDup rows.*1
        /\ forall k v, (k, v) ∈ rows <-> entries (disk w1) !! k = Some v).
Proof.
  split.
  - intros ->. reflexivity.
  - intros Hne. eexists _, _, _.
    split; [apply save_subject_run; exact Hne|].
    split; [reflexivity|].
    split; [apply load_subjects_run|].
    cbn [disk]. change (entries (DatabaseLib.Db (Some ?t))) with t.
    destruct (sorted_entries (<[name := value]> (entries (disk w)))) as (Hs & Hnd & Hin).
    split; [apply Hin; apply lookup_insert_eq|].
    split; [exact Hs|]. split; [exact Hnd|exact Hin].
Qed.

Lemma save_subject_contract_witness :
  DatabaseLib.save_subject EmptyString "v" (DatabaseLib.store lib_start)
  = (Raise (ValueError "name must be a non-empty string."), DatabaseLib.store lib_start)
  /\ exists w1 rows w2,
       DatabaseLib.save_subject "k" "v" (DatabaseLib.store lib_start) = (Ok tt, w1)
       /\ entries (disk w1) = <["k" := "v"]> (entries (disk (DatabaseLib.store lib_start)))
       /\ DatabaseLib.load_subjects w1 = (Ok rows, w2)
       /\ ("k", "v") ∈ rows
       /\ Sorted DatabaseLib.entry_le rows
       /\ NoDup rows.*1
       /\ forall k v, (k, v) ∈ rows <-> entries (disk w1) !! k = Some v.
Proof.
  split.
  - apply (proj1 (save_subject_contract EmptyString "v" (DatabaseLib.store lib_start))).
    reflexivity.
  - apply (proj2 (save_subject_contract "k" "v" (DatabaseLib.store lib_start))).
    discriminate.
Defined.

Example load_subjects_orders_by_name :
  let w1 := snd (DatabaseLib.save_subject "physics" "B" (DatabaseLib.store lib_start)) in
  let w2 := snd (DatabaseLib.save_subject "art" "A" w1) in
  let w3 := snd (DatabaseLib.save_subject "physics" "A" w2) in
  fst (DatabaseLib.load_subjects w3) = Ok [("art", "A"); ("physics", "A")].
Proof. vm_compute. reflexivity. Qed.

(** ** POST and GET /api/goal *)

Lemma set_goal_unfold (payload : pyval) :
  DatabaseApp.set_goal payload
  = match goal_of payload with
    | Some goal =>
        bind (DatabaseApp.save_goal goal)
             (fun _ => ret (DatabaseApp.jsonify (PDict [("status", PStr "ok")])))
    | None => ret goal_error
    end.
Proof.
  destruct payload; reflexivity.
Qed.

(** C10, as stated, fails: a payload whose "goal" is [null] does not get
    [{"status": "ok"}]; the column [goals.goal] is declared NOT NULL and the
    INSERT raises.  A list or an object cannot be bound to the statement at
    all. *)
Lemma null_goal_is_refused :
  fst (DatabaseApp.set_goal (PDict [("goal", PNone)]) app_start)
  = Raise (IntegrityError "NOT NULL constraint failed: goals.goal")
  /\ fst (DatabaseApp.set_goal (PDict [("goal", PNone)]) app_start)
     <> Ok (DatabaseApp.Response (PDict [("status", PStr "ok")]) 200)
  /\ fst (DatabaseApp.set_goal (PDict [("goal", PList [PInt 1])]) app_start)
     = Raise (BindingError "type 'list' is not supported").
Proof.
  split; [vm_compute; reflexivity|]. split; [|vm_compute; reflexivity].
  vm_compute. intros E. discriminate E.
Qed.

(** C10, amended: POST /api/goal answers 400 exactly when the payload is
    not an object or has no "goal"; the value is passed to [save_goal]
    without a check of its type.  When the value is a string, a boolean or
    an integer of at most 64 bits the answer is [{"status": "ok"}] and
    GET /api/goal then returns the stored text: the string itself, or the
    decimal text of the number (1 and 0 for the booleans).  For [null], a
    list, an object or a larger integer [save_goal] raises, the handler
    returns no answer and the stored goal is unchanged. *)
Theorem set_goal_contract (payload : pyval) (w : world DatabaseApp.db) :
  ((exists r w', DatabaseApp.set_goal payload w = (Ok r, w') /\ DatabaseApp.status r = 400)
   <-> goal_of payload = None)
  /\ (goal_of payload = None -> DatabaseApp.set_goal payload w = (Ok goal_error, w))
  /\ (forall goal text,
        goal_of payload = Some goal -> goal_text goal = Some text ->
        exists w',
          DatabaseApp.set_goal payload w
          = (Ok (DatabaseApp.Response (PDict [("status", PStr "ok")]) 200), w')
          /\ fst (DatabaseApp.get_goal w')
             = Ok (DatabaseApp.Response (PDict [("goal", PStr text)]) 200))
  /\ (forall goal,
        goal_of payload = Some goal -> goal_text goal = None ->
        exists e w',
          DatabaseApp.set_goal payload w = (Raise e, w')
          /\ fst (DatabaseApp.load_goal w') = fst (DatabaseApp.load_goal w)).
Proof.
  rewrite set_goal_unfold.
  assert (Hstores : forall goal text, goal_text goal = Some text ->
            exists w',
              bind (DatabaseApp.save_goal goal)
                   (fun _ => ret (DatabaseApp.jsonify (PDict [("status", PStr "ok")]))) w
              = (Ok (DatabaseApp.Response (PDict [("status", PStr "ok")]) 200), w')
              /\ fst (DatabaseApp.get_goal w')
                 = Ok (DatabaseApp.Response (PDict [("goal", PStr text)]) 200)).
  { intros goal text Htext. eexists. unfold bind at 1.
    rewrite (save_goal_stores goal text w Htext). split; [reflexivity|].
    unfold DatabaseApp.get_goal, bind. rewrite load_goal_run. cbn [disk].
    rewrite goal_rows_some, lookup_insert_eq. reflexivity. }
  assert (Hrefuses : forall goal, goal_text goal = None ->
            exists e w',
              bind (DatabaseApp.save_goal goal)
                   (fun _ => ret (DatabaseApp.jsonify (PDict [("status", PStr "ok")]))) w
              = (Raise e, w')
              /\ fst (DatabaseApp.load_goal w') = fst (DatabaseApp.load_goal w)).
  { intros goal Htext. destruct (save_goal_refuses goal w Htext) as (e & He).
    exists e. eexists. unfold bind at 1. rewrite He. split; [reflexivity|].
    rewrite !load_goal_run. cbn [disk fst]. unfold ensured. rewrite goal_rows_some.
    reflexivity. }
  destruct (goal_of payload) as [goal|].
  - split; [|split; [discriminate|split]].
    + split; [|discriminate]. intros (r & w' & Hrun & Hstatus). exfalso.
      destruct (goal_text goal) as [text|] eqn:Htext.
      * destruct (Hstores goal text Htext) as (w1 & Hok & _).
        rewrite Hok in Hrun. injection Hrun as <- _. discriminate Hstatus.
      * destruct (Hrefuses goal Htext) as (e & w1 & Hraise & _).
        rewrite Hraise in Hrun. discriminate Hrun.
    + intros g text [= <-]. apply Hstores.
    + intros g [= <-]. apply Hrefuses.
  - split; [|split; [reflexivity|split; discriminate]].
    split; [reflexivity|]. intros _. eexists _, _. split; reflexivity.
Qed.

Lemma set_goal_contract_witness :
  DatabaseApp.set_goal (PList [PStr "goal"]) app_start = (Ok goal_error, app_start)
  /\ (exists w',
        DatabaseApp.set_goal (PDict [("goal", PInt 7)]) app_start
        = (Ok (DatabaseApp.Response (PDict [("status", PStr "ok")]) 200), w')
        /\ fst (DatabaseApp.get_goal w')
           = Ok (DatabaseApp.Response (PDict [("goal", PStr "7")]) 200))
  /\ (exists e w',
        DatabaseApp.set_goal (PDict [("goal", PNone)]) app_start = (Raise e, w')
        /\ fst (DatabaseApp.load_goal w') = fst (DatabaseApp.load_goal app_start)).
Proof.
  split; [|split].
  - apply (proj1 (proj2 (set_goal_contract (PList [PStr "goal"]) app_start))).
    reflexivity.
  - apply (proj1 (proj2 (proj2 (set_goal_contract (PDict [("goal", PInt 7)]) app_start)))
             (PInt 7) "7"); reflexivity.
  - apply (proj2 (proj2 (proj2 (set_goal_contract (PDict [("goal", PNone)]) app_start)))
             PNone); reflexivity.
Defined.

(** * Further properties of Database.py *)

Section AppFurther.
Import DatabaseApp.

Lemma slot_rows_some (t : gmap Z slot_row) (g : option (gmap Z string)) :
slot_rows (Db (Some t) g) = t.
Proof. reflexivity. Qed.

Lemma slot_rows_ensured (d : db) : slot_rows (ensured d) = slot_rows d.
Proof. reflexivity. Qed.

Lemma goal_rows_ensured (d : db) : goal_rows (ensured d) = goal_rows d.
Proof. reflexivity. Qed.

Lemma ensured_ensured (d : db) : ensured (ensured d) = ensured d.
Proof. reflexivity. Qed.

(** No statement of the write loop touches the table [goals]. *)
Lemma save_items_goals (items : list pyval) :
forall slot d, goals (snd (save_items slot items d)) = goals d.
Proof.
induction items as [|item rest IH]; intros slot d; [reflexivity|].
simpl save_items. destruct (negb (py_truthy item)); [apply IH|].
unfold bind, lift.
destruct (py_get item "subject" (PStr EmptyString)) as [s|e]; [|reflexivity].
destruct (py_get item "current" (PStr EmptyString)) as [c|e]; [|reflexivity].
destruct (py_get item "target" (PStr EmptyString)) as [t|e]; [|reflexivity].
unfold insert_slot at 1.
destruct (subject_slots d) as [tbl|]; [|reflexivity].
destruct (tbl !! slot); [reflexivity|].
rewrite IH. reflexivity.
Qed.

Lemma _save_subjects_goals (payload : pyval) (w : world db) :
goal_rows (disk (snd (_save_subjects payload w))) = goal_rows (disk w).
Proof.
destruct (_save_subjects payload w) as [[[]|e] w'] eqn:Hrun.
- revert Hrun. unfold _save_subjects. unfold bind at 1. rewrite init_db_run.
  unfold bind at 1. unfold lift.
  destruct (py_len payload) as [n|e']; [|discriminate].
  destruct (negb (n =? SLOT_COUNT)); [discriminate|].
  match goal with
  | |- with_connection ?body ?w0 = _ -> _ =>
      pose proof (app_commit_or_rollback body w0) as Hcommit;
      destruct (body (disk w0)) as [[a|e0] d] eqn:Hbody; rewrite Hcommit
  end; [|discriminate].
  intros E. inversion E. subst w'. simpl snd. cbn [disk].
  unfold bind, delete_slots in Hbody. simpl in Hbody.
  pose proof (save_items_goals (py_iter payload) 0
                (Db (Some ∅) (Some (default ∅ (goals (disk w)))))) as Hgoals.
  rewrite Hbody in Hgoals. simpl in Hgoals.
  unfold goal_rows. rewrite Hgoals. reflexivity.
- apply _save_subjects_failure in Hrun. simpl snd. rewrite Hrun. reflexivity.
Qed.

Lemma save_goal_slots (goal : pyval) (w : world db) :
slot_rows (disk (snd (save_goal goal w))) = slot_rows (disk w).
Proof.
destruct (goal_text goal) as [text|] eqn:Htext.
- rewrite (save_goal_stores goal text w Htext). reflexivity.
- destruct (save_goal_refuses goal w Htext) as (e & ->). reflexivity.
Qed.

(** The values [_load_subjects] returns are accepted by [_save_subjects]
  and come back unchanged. *)
Lemma row_record_ok (r : slot_row) :
slot_ok (row_record r) = true /\ app_slot (row_record r) = row_record r.
Proof. destruct r. split; reflexivity. Qed.

Lemma slots_view_entries (t : gmap Z slot_row) :
Forall (fun x => slot_ok x = true /\ app_slot x = x) (slots_view t).
Proof.
apply Forall_lookup. intros i x Hx.
assert (Hi : (i < 5)%nat).
{ apply lookup_lt_Some in Hx. rewrite slots_view_length in Hx. exact Hx. }
rewrite slots_view_lookup in Hx by exact Hi. injection Hx as <-.
destruct (t !! Z.of_nat i); [apply row_record_ok|split; reflexivity].
Qed.
End AppFurther.

(** X1: [_load_subjects] returns, for every content of the database, a list
    of exactly five entries; entry [i] is the record of the row whose slot is
    [i], or [None] when there is none; rows whose slot is outside 0..4 are
    ignored, and no row is changed. *)
Theorem load_subjects_reads_slots (w : world DatabaseApp.db) :
  exists rows w',
    DatabaseApp._load_subjects w = (Ok rows, w')
    /\ length rows = 5%nat
    /\ (forall i : nat, (i < 5)%nat ->
          rows !! i = Some (match slot_rows (disk w) !! Z.of_nat i with
                            | Some r => DatabaseApp.row_record r
                            | None => PNone
                            end))
    /\ slot_rows (disk w') = slot_rows (disk w)
    /\ goal_rows (disk w') = goal_rows (disk w).
Proof.
  eexists _, _. split; [apply _load_subjects_run|].
  split; [apply slots_view_length|].
  split; [intros i Hi; apply slots_view_lookup; exact Hi|].
  split; reflexivity.
Qed.

Example load_subjects_ignores_foreign_slots :
  let t : gmap Z DatabaseApp.slot_row :=
    <[(-1) := DatabaseApp.SlotRow "a" "b" "c"]>
      (<[7 := DatabaseApp.SlotRow "d" "e" "f"]>
         (<[2 := DatabaseApp.SlotRow "maths" "5" "7"]> ∅)) in
  fst (DatabaseApp._load_subjects (World (DatabaseApp.Db (Some t) None) 0))
  = Ok [PNone; PNone;
        PDict [("subject", PStr "maths"); ("current", PStr "5"); ("target", PStr "7")];
        PNone; PNone].
Proof. vm_compute. reflexivity. Qed.



(** X3: a [_save_subjects] that raises, for whatever reason and after
    whatever statements, leaves the rows of both tables as they were, so
    [_load_subjects] returns what it returned before. *)
Theorem save_subjects_failure_keeps_rows (payload : pyval) (e : exn)
    (w w' : world DatabaseApp.db) :
  DatabaseApp._save_subjects payload w = (Raise e, w') ->
  slot_rows (disk w') = slot_rows (disk w)
  /\ goal_rows (disk w') = goal_rows (disk w)
  /\ fst (DatabaseApp._load_subjects w') = fst (DatabaseApp._load_subjects w).
Proof.
  intros Hrun. apply _save_subjects_failure in Hrun.
  rewrite !_load_subjects_run, Hrun. repeat split.
Qed.

Lemma save_subjects_failure_keeps_rows_witness :
  let old : gmap Z DatabaseApp.slot_row := <[3 := DatabaseApp.SlotRow "art" "2" "6"]> ∅ in
  let w := World (DatabaseApp.Db (Some old) None) 0 in
  let run := DatabaseApp._save_subjects
               (PList [PDict [("subject", PStr "maths")]; PInt 1; PNone; PNone; PNone]) w in
  fst run = Raise (AttributeError "'int' object has no attribute 'get'")
  /\ slot_rows (disk (snd run)) = slot_rows (disk w)
  /\ goal_rows (disk (snd run)) = goal_rows (disk w)
  /\ fst (DatabaseApp._load_subjects (snd run)) = fst (DatabaseApp._load_subjects w).
Proof.
  cbv zeta. split; [vm_compute; reflexivity|].
  apply (save_subjects_failure_keeps_rows
           (PList [PDict [("subject", PStr "maths")]; PInt 1; PNone; PNone; PNone])
           (AttributeError "'int' object has no attribute 'get'")).
  vm_compute. reflexivity.
Defined.

(** X4: when the first element of a five-element payload that is true in a
    test is not a dictionary, [_save_subjects] raises the [AttributeError] of
    [item.get]; [set_subjects] catches only [ValueError], so the exception
    leaves the handler, and the rows written before it are rolled back. *)
Theorem truthy_non_object_escapes_handler (before after : list pyval) (item : pyval)
    (w : world DatabaseApp.db) :
  length (before ++ item :: after) = 5%nat ->
  Forall (fun x => slot_ok x = true) before ->
  py_truthy item = true ->
  is_dict item = false ->
  exists w',
    DatabaseApp.set_subjects (PList (before ++ item :: after)) w
    = (Raise (AttributeError
                ("'" +:+ py_type_name item +:+ "' object has no attribute 'get'")), w')
    /\ slot_rows (disk w') = slot_rows (disk w)
    /\ goal_rows (disk w') = goal_rows (disk w).
Proof.
  intros Hlen Hbefore Htrue Hdict.
  assert (Hsave : DatabaseApp._save_subjects (PList (before ++ item :: after)) w
                  = (Raise (AttributeError
                              ("'" +:+ py_type_name item
                               +:+ "' object has no attribute 'get'")),
                     World (ensured (disk w)) (S (S (open_connections w))))).
  { unfold DatabaseApp._save_subjects. unfold bind at 1. rewrite init_db_run.
    unfold bind at 1. unfold lift. simpl py_len. cbv iota beta.
    rewrite Hlen. change (negb (Z.of_nat 5 =? DatabaseApp.SLOT_COUNT)) with false.
    cbv iota.
    pose proof (save_items_rejects_truthy_non_dict before after item 0 ∅
                  (Some (default ∅ (DatabaseApp.goals (disk w))))
                  Hbefore ltac:(intros; apply lookup_empty) Htrue Hdict) as Hloop.
    destruct (DatabaseApp.save_items 0 (before ++ item :: after) _) as [r d] eqn:Hbody.
    simpl in Hloop. subst r.
    erewrite with_connection_raise; [reflexivity|].
    unfold bind, DatabaseApp.delete_slots. simpl. exact Hbody. }
  eexists. unfold DatabaseApp.set_subjects.
  change (negb (is_list (PList (before ++ item :: after)))) with false. cbv iota beta.
  rewrite Hsave. repeat split.
Qed.

Lemma truthy_non_object_escapes_handler_witness :
  exists w',
    DatabaseApp.set_subjects
      (PList ([PDict [("subject", PStr "maths")]; PNone] ++ PStr "art" :: [PNone; PNone]))
      app_start
    = (Raise (AttributeError "'str' object has no attribute 'get'"), w')
    /\ slot_rows (disk w') = slot_rows (disk app_start)
    /\ goal_rows (disk w') = goal_rows (disk app_start).
Proof.
  apply (truthy_non_object_escapes_handler
           [PDict [("subject", PStr "maths")]; PNone] [PNone; PNone] (PStr "art") app_start).
  - reflexivity.
  - repeat constructor.
  - reflexivity.
  - reflexivity.
Defined.

(** X5: what [_load_subjects] returns can be written back as it is:
    [_save_subjects] accepts it, and the next [_load_subjects] returns the
    same list. *)
Theorem load_save_load_is_stable (w : world DatabaseApp.db) :
  exists rows w1 w2 w3,
    DatabaseApp._load_subjects w = (Ok rows, w1)
    /\ DatabaseApp._save_subjects (PList rows) w1 = (Ok tt, w2)
    /\ DatabaseApp._load_subjects w2 = (Ok rows, w3).
Proof.
  pose proof (slots_view_entries (slot_rows (disk w))) as Hrows.
  assert (Hok : Forall (fun x => slot_ok x = true) (slots_view (slot_rows (disk w))))
    by (eapply Forall_impl; [exact Hrows|]; intros x [Hx _]; exact Hx).
  eexists _, _, _, _.
  split; [apply _load_subjects_run|].
  split; [apply _save_subjects_run; [apply slots_view_length|exact Hok]|].
  rewrite _load_subjects_run. cbn [disk]. rewrite slot_rows_some.
  rewrite slots_view_store by apply slots_view_length.
  f_equal. f_equal.
  rewrite <- (list_fmap_id (slots_view (slot_rows (disk w)))) at 2.
  apply Forall_fmap_ext_1.
  eapply Forall_impl; [exact Hrows|]. intros x [_ Hx]. exact Hx.
Qed.

(** X6: the goal and the subjects do not interfere.  A [save_goal], with
    any value and whether it returns or raises, leaves what [_load_subjects]
    returns unchanged; a [_save_subjects], with any payload and whether it
    returns or raises, leaves what [load_goal] returns unchanged. *)
Theorem goal_and_subjects_are_independent (goal payload : pyval)
    (w : world DatabaseApp.db) :
  fst (DatabaseApp._load_subjects (snd (DatabaseApp.save_goal goal w)))
  = fst (DatabaseApp._load_subjects w)
  /\ fst (DatabaseApp.load_goal (snd (DatabaseApp._save_subjects payload w)))
     = fst (DatabaseApp.load_goal w).
Proof.
  split.
  - rewrite !_load_subjects_run. cbn [fst]. rewrite save_goal_slots. reflexivity.
  - rewrite !load_goal_run. cbn [fst]. rewrite _save_subjects_goals. reflexivity.
Qed.

(** X7: a POST that is answered with 400 changes nothing that a GET can
    see: after a refused POST /api/subjects, GET /api/subjects returns what
    it returned before, and after a refused POST /api/goal, GET /api/goal
    does. *)
Theorem refused_post_changes_nothing (payload : pyval) (w : world DatabaseApp.db) :
  (forall r w',
     DatabaseApp.set_subjects payload w = (Ok r, w') -> DatabaseApp.status r = 400 ->
     fst (DatabaseApp.get_subjects w') = fst (DatabaseApp.get_subjects w))
  /\ (forall r w',
        DatabaseApp.set_goal payload w = (Ok r, w') -> DatabaseApp.status r = 400 ->
        fst (DatabaseApp.get_goal w') = fst (DatabaseApp.get_goal w)).
Proof.
  split.
  - intros r w'. unfold DatabaseApp.set_subjects.
    destruct (negb (is_list payload)); [intros [= _ <-] _; reflexivity|].
    destruct (DatabaseApp._save_subjects payload w) as [[[]|e] w1] eqn:Hsave.
    + intros [= <- _] Hstatus. discriminate Hstatus.
    + apply _save_subjects_failure in Hsave.
      destruct e; try discriminate. intros [= _ <-] _.
      unfold DatabaseApp.get_subjects, bind. rewrite !_load_subjects_run, Hsave.
      reflexivity.
  - intros r w'. rewrite set_goal_unfold.
    destruct (goal_of payload) as [goal|]; [|intros [= _ <-] _; reflexivity].
    unfold bind at 1.
    destruct (DatabaseApp.save_goal goal w) as [[[]|e] w1]; [|discriminate].
    intros [= <- _] Hstatus. discriminate Hstatus.
Qed.

Lemma refused_post_changes_nothing_witness :
  let w := snd (DatabaseApp.save_goal (PStr "pass")
                  (snd (DatabaseApp._save_subjects
                          (PList [PDict [("subject", PStr "maths")]; PNone; PNone; PNone;
                                  PNone]) app_start))) in
  fst (DatabaseApp.get_subjects (snd (DatabaseApp.set_subjects (PList [PNone]) w)))
  = fst (DatabaseApp.get_subjects w)
  /\ fst (DatabaseApp.get_goal (snd (DatabaseApp.set_goal (PList []) w)))
     = fst (DatabaseApp.get_goal w).
Proof.
  cbv zeta. split.
  - refine (proj1 (refused_post_changes_nothing (PList [PNone]) _)
              (DatabaseApp.Response
                 (PDict [("error", PStr "Expected 5 slots, got 1.")]) 400) _ _ _).
    + vm_compute. reflexivity.
    + reflexivity.
  - refine (proj2 (refused_post_changes_nothing (PList []) _) goal_error _ _ _).
    + vm_compute. reflexivity.
    + reflexivity.
Defined.


(** X9: the two GET handlers never raise and always answer 200:
    GET /api/subjects with a list of five entries, GET /api/goal with the
    stored goal, or the empty string when none is stored.  A GET changes no
    row, so the same GET after it returns the same body. *)
Theorem get_handlers_answer (w : world DatabaseApp.db) :
  exists rows wa wb,
    DatabaseApp.get_subjects w = (Ok (DatabaseApp.Response (PList rows) 200), wa)
    /\ length rows = 5%nat
    /\ DatabaseApp.get_goal w
       = (Ok (DatabaseApp.Response
                (PDict [("goal", PStr (default EmptyString (goal_rows (disk w) !! 1)))]) 200),
          wb)
    /\ fst (DatabaseApp.get_subjects wa) = fst (DatabaseApp.get_subjects w)
    /\ fst (DatabaseApp.get_goal wa) = fst (DatabaseApp.get_goal w)
    /\ fst (DatabaseApp.get_subjects wb) = fst (DatabaseApp.get_subjects w)
    /\ fst (DatabaseApp.get_goal wb) = fst (DatabaseApp.get_goal w).
Proof.
  eexists _, _, _.
  unfold DatabaseApp.get_subjects, DatabaseApp.get_goal, bind.
  rewrite !_load_subjects_run, !load_goal_run.
  split; [reflexivity|]. split; [apply slots_view_length|]. split; [reflexivity|].
  cbn [disk]. rewrite ?_load_subjects_run, ?load_goal_run. cbn [disk].
  repeat split.
Qed.

(** * Further properties of database.py *)

Section LibFurther.
Import DatabaseLib.

Lemma stored_text_bind (column : string) (value : pyval) :
match stored_text value with
| Some text => exists v, sql_bind value = Ok v /\ text_not_null column v = Ok text
| None =>
    (exists e, sql_bind value = Raise e)
    \/ (exists v e, sql_bind value = Ok v /\ text_not_null column v = Raise e)
end.
Proof.
destruct value as [|[]|z|s|l|d]; simpl.
- right. eexists _, _. split; reflexivity.
- eexists. split; reflexivity.
- eexists. split; reflexivity.
- destruct ((- 2 ^ 63 <=? z) && (z <? 2 ^ 63)).
  + eexists. split; reflexivity.
  + left. eexists. reflexivity.
- eexists. split; reflexivity.
- left. eexists. reflexivity.
- left. eexists. reflexivity.
Qed.

Lemma upsert_bound_stores (name : string) (value : pyval) (text : string)
  (t : gmap string string) :
stored_text value = Some text ->
upsert_bound name value (Db (Some t)) = (Ok tt, Db (Some (<[name := text]> t))).
Proof.
intros Htext. pose proof (stored_text_bind "subject_entries.value" value) as Hbind.
rewrite Htext in Hbind. destruct Hbind as (v & Hv & Ht).
unfold upsert_bound. rewrite Hv. simpl. rewrite Ht. reflexivity.
Qed.

Lemma upsert_bound_refuses (name : string) (value : pyval) (d : db) :
stored_text value = None ->
exists e, upsert_bound name value (Db (Some (entries d))) = (Raise e, Db (Some (entries d))).
Proof.
intros Htext. pose proof (stored_text_bind "subject_entries.value" value) as Hbind.
rewrite Htext in Hbind.
destruct Hbind as [(e & He)|(v & e & Hv & He)]; exists e; unfold upsert_bound.
- rewrite He. reflexivity.
- rewrite Hv. simpl. rewrite He. reflexivity.
Qed.

Lemma upsert_all_stores (rows : pydict) (t : gmap string string) :
Forall (fun kv => is_Some (stored_text kv.2)) rows ->
upsert_all rows (Db (Some t)) = (Ok tt, Db (Some (upserted rows t))).
Proof.
intros Hrows. revert t.
induction Hrows as [|[name value] rows [text Htext] _ IH]; intros t; [reflexivity|].
simpl in Htext. simpl upsert_all. unfold bind at 1.
rewrite (upsert_bound_stores name value text t Htext).
simpl upserted. rewrite Htext. apply IH.
Qed.

(** One value that cannot be stored makes the whole [executemany] raise. *)
Lemma upsert_all_refuses (rows : pydict) (t : gmap string string) :
Exists (fun kv => stored_text kv.2 = None) rows ->
exists e d, upsert_all rows (Db (Some t)) = (Raise e, d).
Proof.
intros Hbad. revert t.
induction rows as [|[name value] rows IH]; intros t; [inversion Hbad|].
simpl upsert_all. unfold bind at 1.
destruct (stored_text value) as [text|] eqn:Htext.
- rewrite (upsert_bound_stores name value text t Htext).
  apply IH. inversion Hbad as [? ? Hhere|]; [|assumption].
  simpl in Hhere. congruence.
- destruct (upsert_bound_refuses name value (Db (Some t)) Htext) as (e & He).
  change (entries (Db (Some t))) with t in He. rewrite He. eauto.
Qed.

Lemma upserted_lookup (rows : pydict) (t : gmap string string) (k : string) :
NoDup rows.*1 ->
Forall (fun kv => is_Some (stored_text kv.2)) rows ->
upserted rows t !! k
= match dict_get k rows with
  | Some v => stored_text v
  | None => t !! k
  end.
Proof.
intros Hnd Hrows. revert t.
induction Hrows as [|[name value] rows [text Htext] _ IH]; intros t; [reflexivity|].
simpl in Hnd, Htext. apply NoDup_cons in Hnd as [Hfresh Hnd].
simpl. rewrite Htext, IH by exact Hnd.
destruct (String.eqb k name) eqn:E.
- apply String.eqb_eq in E. subst k.
  apply dict_get_None in Hfresh. rewrite Hfresh, Htext. apply lookup_insert_eq.
- apply String.eqb_neq in E.
  destruct (dict_get k rows); [reflexivity|].
  apply lookup_insert_ne. congruence.
Qed.

Lemma save_subjects_run (rows : pydict) (w : world db) :
save_subjects (PDict rows) w
= match upsert_all rows (Db (Some (entries (disk w)))) with
  | (Ok a, d) => (Ok a, World d (open_connections w))
  | (Raise e, _) => (Raise e, World (Db (Some (entries (disk w)))) (open_connections w))
  end.
Proof.
unfold save_subjects, bind. rewrite lib_init_db_run.
pose proof (lib_commit_or_rollback (upsert_all rows)
              (World (Db (Some (entries (disk w)))) (open_connections w))) as Hrun.
cbn [disk] in Hrun.
destruct (upsert_all rows (Db (Some (entries (disk w))))) as [[a|e] d]; exact Hrun.
Qed.
End LibFurther.

(** X10: [save_subjects] with a dictionary each of whose values can be
    stored (a string, a boolean or an integer of at most 64 bits) returns
    and upserts every pair in one transaction: each name of the dictionary
    then holds the text of its value, and every other name keeps what it
    held.  The empty name is accepted like any other. *)
Theorem save_subjects_upserts (rows : pydict) (w : world DatabaseLib.db) :
  NoDup rows.*1 ->
  Forall (fun kv => is_Some (stored_text kv.2)) rows ->
  exists w',
    DatabaseLib.save_subjects (PDict rows) w = (Ok tt, w')
    /\ open_connections w' = open_connections w
    /\ forall k, entries (disk w') !! k
                 = match dict_get k rows with
                   | Some v => stored_text v
                   | None => entries (disk w) !! k
                   end.
Proof.
  intros Hnd Hrows. eexists.
  rewrite save_subjects_run, upsert_all_stores by exact Hrows.
  split; [reflexivity|]. split; [reflexivity|].
  intros k. cbn [disk]. change (entries (DatabaseLib.Db (Some ?t))) with t.
  apply upserted_lookup; assumption.
Qed.

Lemma save_subjects_upserts_witness :
  let rows := [("maths", PStr "7"); (EmptyString, PInt 5); ("art", PBool true)] in
  let w := snd (DatabaseLib.save_subject "maths" "4" (DatabaseLib.store lib_start)) in
  exists w',
    DatabaseLib.save_subjects (PDict rows) w = (Ok tt, w')
    /\ open_connections w' = open_connections w
    /\ forall k, entries (disk w') !! k
                 = match dict_get k rows with
                   | Some v => stored_text v
                   | None => entries (disk w) !! k
                   end.
Proof.
  apply save_subjects_upserts.
  - apply (bool_decide_eq_true_1 (NoDup _)). vm_compute. reflexivity.
  - repeat constructor; eexists; reflexivity.
Defined.

(** X11: [save_subjects] is all or nothing.  Anything but a dictionary is
    refused with a [TypeError] before the database is touched; a dictionary
    with a value that cannot be stored ([None], a list, a dictionary, an
    integer of more than 64 bits) makes the call raise; and whenever the
    call raises no entry has changed, not even those of the rows that came
    before the bad one, and no connection is left open. *)
Theorem save_subjects_all_or_nothing (subject_data : pyval) (w : world DatabaseLib.db) :
  (is_dict subject_data = false ->
   DatabaseLib.save_subjects subject_data w
   = (Raise (TypeError "subject_data must be a dict of {name: value}."), w))
  /\ (forall rows,
        subject_data = PDict rows ->
        Exists (fun kv => stored_text kv.2 = None) rows ->
        exists e w', DatabaseLib.save_subjects subject_data w = (Raise e, w'))
  /\ (forall e w',
        DatabaseLib.save_subjects subject_data w = (Raise e, w') ->
        entries (disk w') = entries (disk w)
        /\ open_connections w' = open_connections w).
Proof.
  split; [|split].
  - destruct subject_data; intros E; try discriminate E; reflexivity.
  - intros rows -> Hbad. rewrite save_subjects_run.
    destruct (upsert_all_refuses rows (entries (disk w)) Hbad) as (e & d & ->).
    eauto.
  - intros e w'. destruct subject_data as [| | | | |rows];
      try (intros [= _ <-]; split; reflexivity).
    rewrite save_subjects_run.
    destruct (DatabaseLib.upsert_all rows _) as [[a|e0] d]; [discriminate|].
    intros [= _ <-]. split; reflexivity.
Qed.

Lemma save_subjects_all_or_nothing_witness :
  let w := snd (DatabaseLib.save_subject "maths" "4" (DatabaseLib.store lib_start)) in
  let rows := [("maths", PStr "7"); ("art", PNone); ("music", PStr "2")] in
  DatabaseLib.save_subjects (PList []) w
  = (Raise (TypeError "subject_data must be a dict of {name: value}."), w)
  /\ (exists e w', DatabaseLib.save_subjects (PDict rows) w = (Raise e, w'))
  /\ entries (disk (snd (DatabaseLib.save_subjects (PDict rows) w))) = entries (disk w)
  /\ open_connections (snd (DatabaseLib.save_subjects (PDict rows) w)) = open_connections w.
Proof.
  cbv zeta. split; [|split].
  - apply (proj1 (save_subjects_all_or_nothing (PList []) _)). reflexivity.
  - apply (proj1 (proj2 (save_subjects_all_or_nothing
                           (PDict [("maths", PStr "7"); ("art", PNone); ("music", PStr "2")])
                           _))
             [("maths", PStr "7"); ("art", PNone); ("music", PStr "2")]).
    + reflexivity.
    + apply Exists_cons_tl, Exists_cons_hd. reflexivity.
  - refine (proj2 (proj2 (save_subjects_all_or_nothing
                            (PDict [("maths", PStr "7"); ("art", PNone); ("music", PStr "2")])
                            _))
              (IntegrityError "NOT NULL constraint failed: subject_entries.value") _ _).
    vm_compute. reflexivity.
Defined.

(** X12: for one pair with a name that is not empty and a string value,
    [save_subjects] does exactly what [save_subject] does.  They differ on
    the empty name: [save_subject] refuses it, [save_subjects] stores the
    entry. *)
Theorem save_subjects_of_one_entry (name value : string) (w : world DatabaseLib.db) :
  (name <> EmptyString ->
   DatabaseLib.save_subjects (PDict [(name, PStr value)]) w
   = DatabaseLib.save_subject name value w)
  /\ (exists w',
        DatabaseLib.save_subjects (PDict [(EmptyString, PStr value)]) w = (Ok tt, w')
        /\ entries (disk w') !! EmptyString = Some value)
  /\ fst (DatabaseLib.save_subject EmptyString value w)
     = Raise (ValueError "name must be a non-empty string.").
Proof.
  split; [|split].
  - intros Hne. rewrite save_subject_run by exact Hne. rewrite save_subjects_run.
    reflexivity.
  - eexists. rewrite save_subjects_run. split; [reflexivity|].
    cbn [disk]. change (entries (DatabaseLib.Db (Some ?t))) with t.
    apply lookup_insert_eq.
  - reflexivity.
Qed.

Lemma save_subjects_of_one_entry_witness :
  DatabaseLib.save_subjects (PDict [("maths", PStr "7")]) (DatabaseLib.store lib_start)
  = DatabaseLib.save_subject "maths" "7" (DatabaseLib.store lib_start).
Proof.
  apply (proj1 (save_subjects_of_one_entry "maths" "7" (DatabaseLib.store lib_start))).
  discriminate.
Defined.

(** ** The snapshot of database.py, further *)

Section SnapshotFurther.
Import DatabaseLib.
Context `{JsonCodec}.

Lemma normalize_items_raises (items : list pyval) (index : Z) (acc : pydict) (e : exn) :
normalize_items index items acc = Raise e -> exists msg, e = TypeError msg.
Proof.
revert index acc. induction items as [|item items IH]; intros index acc; [discriminate|].
simpl. destruct (negb (py_truthy item)); [apply IH|].
destruct item; try (intros [= <-]; eexists; reflexivity). apply IH.
Qed.

Lemma normalize_payload_raises (payload : pyval) (slot_count : Z) (e : exn) :
_normalize_subject_payload payload slot_count = Raise e ->
exists msg, e = TypeError msg \/ e = ValueError msg.
Proof.
unfold _normalize_subject_payload.
destruct payload as [| | | |items|]; try (intros [= <-]; eexists; left; reflexivity).
destruct (negb _).
- intros [= <-]. eexists. right. reflexivity.
- intros E. apply normalize_items_raises in E as [msg ->]. eexists. left. reflexivity.
Qed.

(** Where a record of the mapping comes from: the accumulator, or the
  element whose index is the key. *)
Lemma normalized_of_origin (items : list pyval) (index : Z) (acc : pydict)
  (key : string) (v : pyval) :
dict_get key (normalized_of index items acc) = Some v ->
dict_get key acc = Some v
\/ exists i : nat, key = py_int_str (index + Z.of_nat i)
                   /\ items !! i ≫= stored_record = Some v.
Proof.
revert index acc. induction items as [|item items IH]; intros index acc; [left; assumption|].
simpl normalized_of. intros Hget.
destruct (IH _ _ Hget) as [Hacc|(i & -> & Hi)].
- destruct (stored_record item) as [r|] eqn:Hr; [|left; exact Hacc].
  destruct (decide (key = py_int_str index)) as [->|Hne].
  + rewrite dict_get_set_eq in Hacc. injection Hacc as ->.
    right. exists 0%nat. rewrite Z.add_0_r. split; [reflexivity|].
    simpl. exact Hr.
  + rewrite dict_get_set_ne in Hacc by exact Hne. left. exact Hacc.
- right. exists (S i). split; [f_equal; lia|exact Hi].
Qed.

Lemma stored_record_is_record (item r : pyval) :
stored_record item = Some r -> is_record r.
Proof.
destruct item as [| | | | |[|kv d]]; try discriminate.
intros [= <-]. apply normalize_record_is_record.
Qed.





(** The loop over a decoded object whose keys are distinct. *)
Lemma load_items_get (items acc : pydict) (key : string) :
NoDup items.*1 ->
dict_get key (load_items items acc)
= match dict_get key items with
  | Some (PDict r) => Some (normalize_record r)
  | _ => dict_get key acc
  end.
Proof.
revert acc. induction items as [|[k v] items IH]; intros acc Hnd; [reflexivity|].
simpl in Hnd. apply NoDup_cons in Hnd as [Hfresh Hnd].
simpl. destruct (String.eqb key k) eqn:E.
- apply String.eqb_eq in E. subst k.
  assert (Hrest : dict_get key items = None) by (apply dict_get_None; exact Hfresh).
  destruct v; rewrite IH, Hrest by exact Hnd; try reflexivity.
  apply dict_get_set_eq.
- apply String.eqb_neq in E.
  destruct v; rewrite IH by exact Hnd; try reflexivity.
  rewrite dict_get_set_ne by exact E. reflexivity.
Qed.
End SnapshotFurther.



(** X14: what [_normalize_subject_payload] returns.  When it returns a
    mapping, the payload is a list of [slot_count] elements; the mapping
    has distinct keys; under the decimal index of an element it holds the
    record with the three trimmed fields when the element is a dictionary
    that is not empty, and nothing otherwise; and it holds nothing under
    any other key. *)
Theorem normalized_payload_shape (payload : pyval) (slot_count : Z) (m : pydict) :
  DatabaseLib._normalize_subject_payload payload slot_count = Ok m ->
  exists items,
    payload = PList items
    /\ Z.of_nat (length items) = slot_count
    /\ NoDup m.*1
    /\ (forall i : nat,
          dict_get (py_int_str (Z.of_nat i)) m = items !! i ≫= stored_record)
    /\ (forall key v,
          dict_get key m = Some v ->
          is_record v
          /\ exists i : nat, (i < length items)%nat /\ key = py_int_str (Z.of_nat i)).
Proof.
  unfold DatabaseLib._normalize_subject_payload.
  destruct payload as [| | | |items|]; try discriminate.
  destruct (Z.of_nat (length items) =? slot_count) eqn:Hlen; [|discriminate].
  change (negb true) with false. cbv iota. intros Hm.
  assert (Hok := normalize_items_accepts _ _ _ _ Hm).
  rewrite normalize_items_run in Hm by exact Hok. injection Hm as <-.
  exists items. split; [reflexivity|]. split; [apply Z.eqb_eq; exact Hlen|].
  split; [apply normalized_of_wf; split; constructor|]. split.
  - intros i. rewrite normalized_of_get.
    replace (Z.to_nat (Z.of_nat i - 0)) with i by lia.
    destruct (decide _) as [Hi|Hi].
    + destruct (items !! i ≫= stored_record); reflexivity.
    + rewrite (lookup_ge_None_2 items i) by lia. reflexivity.
  - intros key v Hget.
    destruct (normalized_of_origin _ _ _ _ _ Hget) as [Hacc|(i & -> & Hi)];
      [discriminate Hacc|].
    destruct (items !! i) as [item|] eqn:Hitem; [|discriminate Hi].
    simpl in Hi. split; [exact (stored_record_is_record _ _ Hi)|].
    exists i. split; [exact (lookup_lt_Some _ _ _ Hitem)|reflexivity].
Qed.

Lemma normalized_payload_shape_witness :
  exists items,
    PList [PDict [("subject", PStr " maths ")]; PNone; PDict []] = PList items
    /\ Z.of_nat (length items) = 3
    /\ NoDup [("0", PDict [("subject", PStr "maths"); ("current", PStr EmptyString);
                           ("target", PStr EmptyString)])].*1
    /\ (forall i : nat,
          dict_get (py_int_str (Z.of_nat i))
            [("0", PDict [("subject", PStr "maths"); ("current", PStr EmptyString);
                          ("target", PStr EmptyString)])]
          = items !! i ≫= stored_record)
    /\ (forall key v,
          dict_get key
            [("0", PDict [("subject", PStr "maths"); ("current", PStr EmptyString);
                          ("target", PStr EmptyString)])] = Some v ->
          is_record v
          /\ exists i : nat, (i < length items)%nat /\ key = py_int_str (Z.of_nat i)).
Proof.
  apply (normalized_payload_shape
           (PList [PDict [("subject", PStr " maths ")]; PNone; PDict []]) 3).
  vm_compute. reflexivity.
Defined.



(** X16: a refused snapshot changes nothing.  When [save_subjects_snapshot]
    raises, the exception is a [TypeError] or a [ValueError] of the
    normalization, and neither the mirror nor the database file has
    changed: the mirror is assigned only once the payload is accepted. *)
Theorem refused_snapshot_changes_nothing `{JsonCodec} (payload : pyval) (slot_count : Z)
    (st st' : DatabaseLib.state) (e : exn) :
  DatabaseLib.save_subjects_snapshot payload slot_count st = (Raise e, st') ->
  st' = st /\ exists msg, e = TypeError msg \/ e = ValueError msg.
Proof.
  intros Hrun. split; [exact (save_subjects_snapshot_raise _ _ _ _ _ Hrun)|].
  unfold DatabaseLib.save_subjects_snapshot in Hrun.
  destruct (DatabaseLib._normalize_subject_payload payload slot_count) as [m|e'] eqn:E.
  - rewrite save_subject_run in Hrun by discriminate. discriminate Hrun.
  - injection Hrun as -> _. exact (normalize_payload_raises _ _ _ E).
Qed.

Lemma refused_snapshot_changes_nothing_witness :
  let st := snd (DatabaseLib.save_subjects_snapshot
                   (PList [PDict [("subject", PStr "maths")]]) 1 lib_start) in
  snd (DatabaseLib.save_subjects_snapshot (PList [PInt 3]) 1 st) = st.
Proof.
  cbv zeta.
  refine (proj1 (refused_snapshot_changes_nothing (PList [PInt 3]) 1 _ _
                   (TypeError "subject_list[0] must be a dict or null.") _)).
  vm_compute. reflexivity.
Defined.



(** X18: the snapshot is an entry among the others.  After a successful
    [save_subjects_snapshot], [load_subjects] lists the name "subjects"
    with the JSON text of the mirror, and under every other name exactly
    what the table held before. *)
Theorem snapshot_is_an_entry `{JsonCodec} (payload : pyval) (slot_count : Z)
    (st st1 : DatabaseLib.state) :
  DatabaseLib.save_subjects_snapshot payload slot_count st = (Ok tt, st1) ->
  exists rows w,
    DatabaseLib.load_subjects (DatabaseLib.store st1) = (Ok rows, w)
    /\ (DatabaseLib.SUBJECTS_KEY, json_dumps (PDict (DatabaseLib.subjects st1))) ∈ rows
    /\ forall k v,
         k <> DatabaseLib.SUBJECTS_KEY ->
         ((k, v) ∈ rows <-> entries (disk (DatabaseLib.store st)) !! k = Some v).
Proof.
  intros Hsave.
  destruct (save_subjects_snapshot_inv _ _ _ _ Hsave) as (items & -> & Hlen & Hok & _).
  rewrite save_subjects_snapshot_run in Hsave by assumption.
  injection Hsave as <-. eexists _, _.
  rewrite load_subjects_run. split; [reflexivity|].
  cbn [DatabaseLib.store DatabaseLib.subjects disk].
  change (entries (DatabaseLib.Db (Some ?t))) with t.
  destruct (sorted_entries
              (<[DatabaseLib.SUBJECTS_KEY
                 := json_dumps (PDict (normalized_of 0 items []))]>
                 (entries (disk (DatabaseLib.store st))))) as (_ & _ & Hrows).
  split.
  - apply Hrows, lookup_insert_eq.
  - intros k v Hne. rewrite Hrows, lookup_insert_ne by congruence. reflexivity.
Qed.

Lemma snapshot_is_an_entry_witness :
  let st := DatabaseLib.State
              (snd (DatabaseLib.save_subject "maths" "7" (DatabaseLib.store lib_start))) [] in
  let st1 := snd (DatabaseLib.save_subjects_snapshot
                    (PList [PDict [("subject", PStr "art")]]) 1 st) in
  exists rows w,
    DatabaseLib.load_subjects (DatabaseLib.store st1) = (Ok rows, w)
    /\ (DatabaseLib.SUBJECTS_KEY, json_dumps (PDict (DatabaseLib.subjects st1))) ∈ rows
    /\ forall k v,
         k <> DatabaseLib.SUBJECTS_KEY ->
         ((k, v) ∈ rows <-> entries (disk (DatabaseLib.store st)) !! k = Some v).
Proof.
  cbv zeta.
  apply (snapshot_is_an_entry (PList [PDict [("subject", PStr "art")]]) 1).
  vm_compute. reflexivity.
Defined.



(** X20: reading a stored object that [save_subjects_snapshot] did not
    write.  When the text under "subjects" decodes to an object with
    distinct keys, the entry for an index is the record made from the value
    under its decimal key when that value is an object (also an empty one,
    which the write path would have dropped), each field turned into a
    string and trimmed, and [None] when the key is absent or holds anything
    else. *)
Theorem load_subjects_snapshot_reads_objects `{JsonCodec} (slot_count : Z)
    (st : DatabaseLib.state) (text : string) (stored : pydict) :
  entries (disk (DatabaseLib.store st)) !! DatabaseLib.SUBJECTS_KEY = Some text ->
  text <> EmptyString ->
  json_loads text = Some (PDict stored) ->
  NoDup stored.*1 ->
  exists rows st',
    DatabaseLib.load_subjects_snapshot slot_count st = (Ok rows, st')
    /\ length rows = Z.to_nat slot_count
    /\ forall i : nat,
         Z.of_nat i < slot_count ->
         rows !! i = Some (match dict_get (py_int_str (Z.of_nat i)) stored with
                           | Some (PDict r) => DatabaseLib.normalize_record r
                           | _ => PNone
                           end).
Proof.
  intros Hrow Hne Hloads Hnd. eexists _, _.
  rewrite load_subjects_snapshot_run. split; [reflexivity|].
  split; [apply snapshot_view_length|].
  intros i Hi. rewrite snapshot_view_lookup by exact Hi. f_equal.
  rewrite Hrow. unfold DatabaseLib.recover.
  apply String.eqb_neq in Hne. rewrite Hne, Hloads.
  rewrite load_items_get by exact Hnd.
  destruct (dict_get _ stored) as [[]|]; reflexivity.
Qed.

Lemma load_subjects_snapshot_reads_objects_witness :
  let stored := [("0", PDict [("subject", PStr " art "); ("current", PInt 6)]);
                 ("1", PInt 5); ("2", PDict [])] in
  let st := DatabaseLib.State
              (snd (DatabaseLib.save_subject DatabaseLib.SUBJECTS_KEY
                      (json_dumps (PDict stored)) (DatabaseLib.store lib_start))) [] in
  exists rows st',
    DatabaseLib.load_subjects_snapshot 4 st = (Ok rows, st')
    /\ length rows = Z.to_nat 4
    /\ forall i : nat,
         Z.of_nat i < 4 ->
         rows !! i = Some (match dict_get (py_int_str (Z.of_nat i)) stored with
                           | Some (PDict r) => DatabaseLib.normalize_record r
                           | _ => PNone
                           end).
Proof.
  cbv zeta.
  apply (load_subjects_snapshot_reads_objects 4 _
           (json_dumps (PDict [("0", PDict [("subject", PStr " art "); ("current", PInt 6)]);
                               ("1", PInt 5); ("2", PDict [])]))).
  - vm_compute. reflexivity.
  - vm_compute. discriminate.
  - vm_compute. reflexivity.
  - apply (bool_decide_eq_true_1 (NoDup _)). vm_compute. reflexivity.
Defined.

(** X21: [load_subjects] is a read.  On any database file it returns
    without raising, changes no entry and leaves no connection open, and a
    second call returns the same rows and changes nothing; on a file that
    has no table yet it returns no row and leaves the table created. *)
Theorem load_subjects_is_a_read (w : world DatabaseLib.db) :
  exists rows w',
    DatabaseLib.load_subjects w = (Ok rows, w')
    /\ entries (disk w') = entries (disk w)
    /\ open_connections w' = open_connections w
    /\ DatabaseLib.load_subjects w' = (Ok rows, w')
    /\ DatabaseLib.load_subjects (World DatabaseLib.new_db (open_connections w))
       = (Ok [], World (DatabaseLib.Db (Some ∅)) (open_connections w)).
Proof.
  eexists _, _. rewrite !load_subjects_run.
  split; [reflexivity|]. split; [reflexivity|]. split; [reflexivity|].
  split; [reflexivity|].
  cbn [disk open_connections]. unfold entries, DatabaseLib.new_db. simpl.
  rewrite map_to_list_empty. reflexivity.
Qed.
